(** * Upload handler: presigned-URL issuing Lambda

    Shallow embedding of [src/lambda-functions/upload-handler/handler.py]
    ([lambda_handler], [sanitize_filename], [error_response]) together with
    the fragment of the Python runtime those three functions rely on, and the
    properties of the handler that are proved about it.

    Conventions.
    - A Python [str] is a [string]; one [ascii] stands for one character
      (code points 0..255).
    - A Python [int] is a [Z]; a Python [float] is a binary64 value of
      [SpecFloat.spec_float].
    - The Lambda runtime is Linux, so [os.path] is [posixpath].
    - [print] only writes to the log stream; the value returned by the
      handler never depends on it, so the log is not part of the model. *)

From Stdlib Require Import ZArith List String Ascii Bool Lia.
From Stdlib Require Import Floats.SpecFloat.
From Stdlib Require DecimalString DecimalPos DecimalFacts.
Import ListNotations.

Set Warnings "-register-all".

Local Open Scope string_scope.
Local Open Scope Z_scope.

(** ** Python strings *)

Module PyStr.

Definition len (s : string) : Z := Z.of_nat (String.length s).

Fixpoint take (n : nat) (s : string) : string :=
  match n, s with
  | S n', String a r => String a (take n' r)
  | _, _ => EmptyString
  end.

Fixpoint drop (n : nat) (s : string) : string :=
  match n, s with
  | S n', String _ r => drop n' r
  | _, _ => s
  end.

(** Slice bound normalisation: a negative bound counts from the end, and
    the result is clamped to [0, len]. *)
Definition clamp (k : Z) (s : string) : nat :=
  let k' := if k <? 0 then k + len s else k in
  Z.to_nat (Z.max 0 (Z.min k' (len s))).

(** [s[:k]] *)
Definition slice_to (k : Z) (s : string) : string := take (clamp k s) s.

(** [s[i:]] *)
Definition slice_from (i : Z) (s : string) : string := drop (clamp i s) s.

(** [s[i:j]] *)
Definition slice (i j : Z) (s : string) : string :=
  take (clamp j s - clamp i s) (drop (clamp i s) s).

(** [s.rfind(c)] for a one-character [c]: the highest index, or -1. *)
Fixpoint rfind (c : ascii) (s : string) : Z :=
  match s with
  | EmptyString => -1
  | String a r =>
      let i := rfind c r in
      if 0 <=? i then i + 1
      else if Ascii.eqb a c then 0 else -1
  end.

(** [s.replace(old, new)] for one-character [old] and [new]. *)
Fixpoint replace (old new : ascii) (s : string) : string :=
  match s with
  | EmptyString => EmptyString
  | String a r =>
      String (if Ascii.eqb a old then new else a) (replace old new r)
  end.

(** [c in s] for a one-character [c]. *)
Fixpoint mem (c : ascii) (s : string) : bool :=
  match s with
  | EmptyString => false
  | String a r => Ascii.eqb a c || mem c r
  end.

(** [needle in s] for strings: substring test. *)
Fixpoint contains (needle s : string) : bool :=
  String.prefix needle s
  || match s with
     | EmptyString => false
     | String _ r => contains needle r
     end.

Fixpoint repeat (c : ascii) (n : nat) : string :=
  match n with
  | O => EmptyString
  | S n' => String c (repeat c n')
  end.

End PyStr.

(** ** [os.path] on POSIX *)

Module PosixPath.

Definition sep : ascii := "/".
Definition extsep : ascii := ".".

(** [posixpath.basename]:
    [i = p.rfind(sep) + 1; return p[i:]] *)
Definition basename (p : string) : string :=
  let i := PyStr.rfind sep p + 1 in
  PyStr.slice_from i p.

(** The [while] loop of [genericpath._splitext]: scan the indices
    [filenameIndex .. dotIndex-1]; as soon as one of them holds a
    character other than the dot the path is split at [dotIndex]. *)
Fixpoint skip_leading_dots (fuel : nat) (p : string)
         (filenameIndex dotIndex : Z) : bool :=
  match fuel with
  | O => false
  | S fuel' =>
      if filenameIndex <? dotIndex then
        if negb (String.eqb (PyStr.slice filenameIndex (filenameIndex + 1) p)
                            (String extsep EmptyString))
        then true
        else skip_leading_dots fuel' p (filenameIndex + 1) dotIndex
      else false
  end.

(** [posixpath.splitext], that is
    [genericpath._splitext(p, sep='/', altsep=None, extsep='.')]. *)
Definition splitext (p : string) : string * string :=
  let sepIndex := PyStr.rfind sep p in
  let dotIndex := PyStr.rfind extsep p in
  if (sepIndex <? dotIndex)
     && skip_leading_dots (String.length p) p (sepIndex + 1) dotIndex
  then (PyStr.slice_to dotIndex p, PyStr.slice_from dotIndex p)
  else (p, PyStr.slice_to 0 p).

End PosixPath.

(** ** [sanitize_filename] (handler.py, lines 95-113) *)

Definition dangerous_chars : list ascii :=
  [ "<"; ">"; ":"; "034"; "/"; "\"; "|"; "?"; "*"; "000" ]%char.

Definition max_length : Z := 200.

(** The [for char in dangerous_chars] loop. *)
Definition replace_dangerous (filename : string) : string :=
  fold_left (fun fn char => PyStr.replace char "_"%char fn)
            dangerous_chars filename.

Definition sanitize_filename (filename : string) : string :=
  let filename := PosixPath.basename filename in
  let filename := replace_dangerous filename in
  if PyStr.len filename >? max_length then
    let '(name, ext) := PosixPath.splitext filename in
    PyStr.slice_to (max_length - PyStr.len ext) name ++ ext
  else filename.

(** ** Python values, exceptions *)

(** The values a decoded JSON document is made of.  A [dict] keeps its
    insertion order, so it is an association list; a lookup returns the
    first binding of the key. *)
Inductive pyval : Type :=
| PNone
| PBool (b : bool)
| PInt (z : Z)
| PFloat (f : spec_float)
| PStr (s : string)
| PList (l : list pyval)
| PDict (d : list (string * pyval)).

(** The exception classes that matter to the handler: it tells
    [botocore.exceptions.ClientError] from every other [Exception]. *)
Inductive exn : Type :=
| ClientError (text : string)
| ValueError          (* includes json.JSONDecodeError *)
| TypeError
| AttributeError
| OverflowError
| OtherException (text : string).

Definition is_ClientError (e : exn) : bool :=
  match e with ClientError _ => true | _ => false end.

Inductive result (A : Type) : Type :=
| Ok (a : A)
| Raise (e : exn).
Arguments Ok {A} a.
Arguments Raise {A} e.

Definition bind {A B : Type} (c : result A) (k : A -> result B) : result B :=
  match c with
  | Ok a => k a
  | Raise e => Raise e
  end.

Declare Scope py_scope.
Delimit Scope py_scope with py.
Notation "x <- c ;; k" := (bind c (fun x => k))
  (at level 61, c at next level, right associativity) : py_scope.

(** ** Integers and floats *)

Module PyNum.

Definition prec : Z := 53.
Definition emax : Z := 1024.

(** [str(n)] for an [int]. *)
Definition str_of_int (n : Z) : string :=
  DecimalString.NilZero.string_of_int (Z.to_int n).

(** The binary64 value nearest to [n / d] (ties to even), for [0 < d].
    The quotient is taken with at least 63 significant bits and one
    sticky bit, then rounded once. *)
Definition of_ratio (n d : Z) : spec_float :=
  match n with
  | 0 => S754_zero false
  | _ =>
      let a := Z.abs n in
      let s := Z.max 0 (64 + Z.log2 d - Z.log2 a) in
      let q := (a * 2 ^ s) / d in
      let r := (a * 2 ^ s) mod d in
      let m := 2 * q + (if r =? 0 then 0 else 1) in
      binary_normalize prec emax (if n <? 0 then - m else m) (- (s + 1)) false
  end.

(** [a / b] on two [int]s with [0 < b]: the correctly rounded quotient,
    or [OverflowError] when it is too large for a float. *)
Definition int_truediv (a b : Z) : result spec_float :=
  match of_ratio a b with
  | S754_infinity _ => Raise OverflowError
  | f => Ok f
  end.

(** [bool(f)] *)
Definition float_truthy (f : spec_float) : bool :=
  match f with
  | S754_zero _ => false
  | _ => true
  end.

(** [f > n] for a float and an int: Python compares the exact values. *)
Definition float_gt_int (f : spec_float) (n : Z) : bool :=
  match f with
  | S754_zero _ => 0 >? n
  | S754_infinity s => negb s
  | S754_nan => false
  | S754_finite s m e =>
      let v := if s then Z.neg m else Z.pos m in
      if 0 <=? e then v * 2 ^ e >? n else v >? n * 2 ^ (- e)
  end.

Definition hexdigit (n : Z) : ascii :=
  match n with
  | 0 => "0" | 1 => "1" | 2 => "2" | 3 => "3" | 4 => "4" | 5 => "5"
  | 6 => "6" | 7 => "7" | 8 => "8" | 9 => "9" | 10 => "a" | 11 => "b"
  | 12 => "c" | 13 => "d" | 14 => "e" | _ => "f"
  end%char.

(** The [i]-th hexadecimal digit of [n], counted from the least
    significant one. *)
Definition nibble (n : Z) (i : nat) : ascii :=
  hexdigit (Z.land (Z.shiftr n (4 * Z.of_nat i)) 15).

Fixpoint hex_fixed (width : nat) (n : Z) : string :=
  match width with
  | O => EmptyString
  | S w => String (nibble n w) (hex_fixed w n)
  end.

End PyNum.

(** ** Library functions the handler is linked against

    [json_loads s] is [None] when [json.loads(s)] raises (a
    [JSONDecodeError], another [ValueError], a [RecursionError]: never a
    [ClientError]); [float_repr] is [float.__repr__]. *)
Record PyLib : Type := {
  json_loads : string -> option pyval;
  float_repr : spec_float -> string
}.

(** ** Dynamic operations on values *)

Fixpoint dict_get (d : list (string * pyval)) (k : string) : option pyval :=
  match d with
  | [] => None
  | (k', v) :: d' => if String.eqb k' k then Some v else dict_get d' k
  end.

Definition is_PStr (v : pyval) (s : string) : bool :=
  match v with
  | PStr s' => String.eqb s' s
  | _ => false
  end.

(** [bool(v)] *)
Definition truthy (v : pyval) : bool :=
  match v with
  | PNone => false
  | PBool b => b
  | PInt z => negb (z =? 0)
  | PFloat f => PyNum.float_truthy f
  | PStr s => negb (String.eqb s EmptyString)
  | PList l => match l with [] => false | _ => true end
  | PDict d => match d with [] => false | _ => true end
  end.

(** ['k' in v] for a string constant ['k']. *)
Definition py_contains_str (v : pyval) (k : string) : result bool :=
  match v with
  | PDict d => Ok (match dict_get d k with Some _ => true | None => false end)
  | PList l => Ok (existsb (fun x => is_PStr x k) l)
  | PStr s => Ok (PyStr.contains k s)
  | _ => Raise TypeError
  end.

(** [v['k']] for a string constant ['k']. *)
Definition py_getitem_str (v : pyval) (k : string) : result pyval :=
  match v with
  | PDict d => match dict_get d k with
               | Some x => Ok x
               | None => Raise (OtherException "KeyError")
               end
  | _ => Raise TypeError
  end.

(** [d.get(k, default)] on a dictionary. *)
Definition dict_get_default (d : list (string * pyval)) (k : string)
           (default : pyval) : pyval :=
  match dict_get d k with
  | Some x => x
  | None => default
  end.

(** [v.get('k', default)]: only a [dict] has the method. *)
Definition py_get (v : pyval) (k : string) (default : pyval) : result pyval :=
  match v with
  | PDict d => Ok (dict_get_default d k default)
  | _ => Raise AttributeError
  end.

(** A JSON number: an integer or a float literal. *)
Definition is_json_number (v : pyval) : bool :=
  match v with
  | PInt _ | PFloat _ => true
  | _ => false
  end.

(** [isinstance(v, (int, float))]; a [bool] is an [int]. *)
Definition is_int_or_float (v : pyval) : bool :=
  match v with
  | PInt _ | PBool _ | PFloat _ => true
  | _ => false
  end.

(** [v in allowed] for a list of strings: only an equal [str] is a member. *)
Definition py_in_strs (v : pyval) (allowed : list string) : bool :=
  existsb (fun a => is_PStr v a) allowed.

(** [v > n] for an [int] [n]. *)
Definition py_gt_int (v : pyval) (n : Z) : result bool :=
  match v with
  | PInt z => Ok (z >? n)
  | PBool b => Ok ((if b then 1 else 0) >? n)
  | PFloat f => Ok (PyNum.float_gt_int f n)
  | _ => Raise TypeError
  end.

(** ** Rendering values as text *)

Fixpoint join (sep : string) (l : list string) : string :=
  match l with
  | [] => EmptyString
  | [x] => x
  | x :: r => x ++ sep ++ join sep r
  end.

Definition bs : ascii := "\"%char.
Definition dquote : ascii := "034"%char.
Definition squote : ascii := "'"%char.

(** One character of [json.encoder.encode_basestring_ascii]. *)
Definition json_escape_char (c : ascii) : string :=
  let n := Z.of_nat (nat_of_ascii c) in
  if Ascii.eqb c dquote then String bs (String dquote EmptyString)
  else if Ascii.eqb c bs then String bs (String bs EmptyString)
  else if n =? 10 then String bs "n"
  else if n =? 13 then String bs "r"
  else if n =? 9 then String bs "t"
  else if n =? 8 then String bs "b"
  else if n =? 12 then String bs "f"
  else if (32 <=? n) && (n <=? 126) then String c EmptyString
  else String bs ("u" ++ PyNum.hex_fixed 4 n).

Fixpoint json_escape (s : string) : string :=
  match s with
  | EmptyString => EmptyString
  | String c r => json_escape_char c ++ json_escape r
  end.

(** [json.dumps] of a [str] (with the default [ensure_ascii=True]). *)
Definition json_string (s : string) : string :=
  String dquote (json_escape s) ++ String dquote EmptyString.

(** The characters of Latin-1 that [str.__repr__] writes as [\xhh]. *)
Definition repr_unprintable (n : Z) : bool :=
  (n <? 32) || ((127 <=? n) && (n <=? 160)) || (n =? 173).

Definition repr_escape_char (quote c : ascii) : string :=
  let n := Z.of_nat (nat_of_ascii c) in
  if Ascii.eqb c quote || Ascii.eqb c bs then String bs (String c EmptyString)
  else if n =? 9 then String bs "t"
  else if n =? 10 then String bs "n"
  else if n =? 13 then String bs "r"
  else if repr_unprintable n then String bs ("x" ++ PyNum.hex_fixed 2 n)
  else String c EmptyString.

Fixpoint repr_escape (quote : ascii) (s : string) : string :=
  match s with
  | EmptyString => EmptyString
  | String c r => repr_escape_char quote c ++ repr_escape quote r
  end.

(** [repr(s)] for a [str]: single quotes, unless the string holds a single
    quote and no double quote. *)
Definition str_repr (s : string) : string :=
  let quote :=
    if PyStr.mem squote s && negb (PyStr.mem dquote s) then dquote else squote in
  String quote (repr_escape quote s) ++ String quote EmptyString.

Section Rendering.

Variable L : PyLib.

(** How [json.dumps] writes a float: [float.__repr__], except for the three
    special values. *)
Definition json_float (f : spec_float) : string :=
  match f with
  | S754_nan => "NaN"
  | S754_infinity false => "Infinity"
  | S754_infinity true => "-Infinity"
  | _ => float_repr L f
  end.

(** [json.dumps(v)] with the default separators [", "] and [": "]. *)
Fixpoint json_dumps (v : pyval) : string :=
  match v with
  | PNone => "null"
  | PBool true => "true"
  | PBool false => "false"
  | PInt z => PyNum.str_of_int z
  | PFloat f => json_float f
  | PStr s => json_string s
  | PList l => "[" ++ join ", " (map json_dumps l) ++ "]"
  | PDict d =>
      "{" ++ join ", "
               (map (fun kv => json_string (fst kv) ++ ": " ++ json_dumps (snd kv)) d)
          ++ "}"
  end.

(** [repr(v)] *)
Fixpoint py_repr (v : pyval) : string :=
  match v with
  | PNone => "None"
  | PBool true => "True"
  | PBool false => "False"
  | PInt z => PyNum.str_of_int z
  | PFloat f => float_repr L f
  | PStr s => str_repr s
  | PList l => "[" ++ join ", " (map py_repr l) ++ "]"
  | PDict d =>
      "{" ++ join ", "
               (map (fun kv => str_repr (fst kv) ++ ": " ++ py_repr (snd kv)) d)
          ++ "}"
  end.

(** [str(v)], which is what an f-string field [{v}] inserts. *)
Definition py_str (v : pyval) : string :=
  match v with
  | PStr s => s
  | _ => py_repr v
  end.

End Rendering.

(** ** Clock and random identifiers *)

Record datetime : Type := {
  year : Z;
  month : Z;
  day : Z
}.

Definition zero_pad (width : nat) (s : string) : string :=
  PyStr.repeat "0" (width - String.length s) ++ s.

(** [d.strftime('%Y/%m/%d')] *)
Definition strftime_Ymd (d : datetime) : string :=
  zero_pad 4 (PyNum.str_of_int (year d)) ++ "/"
  ++ zero_pad 2 (PyNum.str_of_int (month d)) ++ "/"
  ++ zero_pad 2 (PyNum.str_of_int (day d)).

(** [uuid.UUID(bytes=os.urandom(16), version=4).int], the sixteen random
    bytes being read as one big-endian integer. *)
Definition uuid4_int (random_bytes : Z) : Z :=
  let int := random_bytes mod 2 ^ 128 in
  let int := Z.land int (Z.lnot (Z.shiftl 0xc000 48)) in
  let int := Z.lor int (Z.shiftl 0x8000 48) in
  let int := Z.land int (Z.lnot (Z.shiftl 0xf000 64)) in
  Z.lor int (Z.shiftl 4 76).

(** [str(u)] for a UUID: ['%032x' % u.int], cut 8-4-4-4-12. *)
Definition uuid_str (int : Z) : string :=
  let hex := PyNum.hex_fixed 32 int in
  PyStr.slice 0 8 hex ++ "-" ++ PyStr.slice 8 12 hex ++ "-"
  ++ PyStr.slice 12 16 hex ++ "-" ++ PyStr.slice 16 20 hex ++ "-"
  ++ PyStr.slice_from 20 hex.

(** [str(uuid.uuid4())] *)
Definition uuid4 (random_bytes : Z) : string := uuid_str (uuid4_int random_bytes).

(** ** Configuration and the world of one invocation *)

(** The module-level constants read from the environment when the process
    starts (handler.py, lines 12-16).  [ALLOWED_FILE_TYPES] is the decoded
    JSON list of content types. *)
Record Config : Type := {
  UPLOAD_BUCKET : string;
  ALLOWED_FILE_TYPES : list string;
  MAX_FILE_SIZE : Z;
  PRESIGNED_URL_EXPIRY : Z;
  KMS_KEY_ID : string
}.

(** The [Params] dictionary handed to [generate_presigned_url]. *)
Record PresignParams : Type := {
  Bucket : string;
  Key : string;
  ContentType : pyval;
  ServerSideEncryption : string;
  SSEKMSKeyId : string
}.

(** What one invocation reads from outside: the clock, sixteen random
    bytes, and the answer of [s3_client.generate_presigned_url], which is a
    URL or a raised exception. *)
Record World : Type := {
  utcnow : datetime;
  urandom : Z;
  generate_presigned_url : string -> PresignParams -> Z -> result string
}.

(** The dictionary returned to the Lambda runtime. *)
Record response : Type := {
  statusCode : Z;
  headers : list (string * string);
  body : string
}.

Definition response_headers : list (string * string) :=
  [ ("Content-Type", "application/json");
    ("Access-Control-Allow-Origin", "*") ].

(** ** The handler *)

Section Handler.

Variable L : PyLib.
Variable cfg : Config.

Local Open Scope py_scope.

(** [error_response] (handler.py, lines 116-129) *)
Definition error_response (status_code : Z) (message : string) : response :=
  {| statusCode := status_code;
     headers := response_headers;
     body := json_dumps L (PDict [("error", PStr message)]) |}.

(** The success envelope (handler.py, lines 72-84). *)
Definition success_response (presigned_url file_key : string) : response :=
  {| statusCode := 200;
     headers := response_headers;
     body := json_dumps L
               (PDict [ ("uploadUrl", PStr presigned_url);
                        ("fileKey", PStr file_key);
                        ("expiresIn", PInt (PRESIGNED_URL_EXPIRY cfg));
                        ("message", PStr "Upload URL generated successfully") ]) |}.

(** Lines 26-32: the request is the event itself, or what the event holds
    under ['body'], decoded when that is a string. *)
Definition extract_body (event : pyval) : result pyval :=
  has_body <- py_contains_str event "body" ;;
  if (has_body : bool) then
    b <- py_getitem_str event "body" ;;
    match b with
    | PStr s =>
        match json_loads L s with
        | Some v => Ok v
        | None => Raise ValueError
        end
    | _ => Ok b
    end
  else Ok event.

(** [sanitize_filename] applied to an arbitrary value: [os.path.basename]
    raises [TypeError] on anything that is not a [str]. *)
Definition sanitize_filename_dyn (filename : pyval) : result string :=
  match filename with
  | PStr s => Ok (sanitize_filename s)
  | _ => Raise TypeError
  end.

(** Line 55: the storage key. *)
Definition file_key (W : World) (safe_filename : string) : string :=
  strftime_Ymd (utcnow W) ++ "/" ++ uuid4 (urandom W) ++ "-" ++ safe_filename.

(** Lines 58-68: the call to the signer. *)
Definition presign (W : World) (key : string) (content_type : pyval)
  : result string :=
  generate_presigned_url W "put_object"
    {| Bucket := UPLOAD_BUCKET cfg;
       Key := key;
       ContentType := content_type;
       ServerSideEncryption := "aws:kms";
       SSEKMSKeyId := KMS_KEY_ID cfg |}
    (PRESIGNED_URL_EXPIRY cfg).

Definition missing_fields_message : string :=
  "Missing required fields: filename and contentType".

(** Line 45: [f"File type {content_type} is not allowed"] *)
Definition type_not_allowed_message (content_type : pyval) : string :=
  "File type " ++ py_str L content_type ++ " is not allowed".

(** Line 49: [f"File size exceeds maximum of {MAX_FILE_SIZE / (1024 * 1024)}MB"] *)
Definition size_exceeded_message : result string :=
  mb <- PyNum.int_truediv (MAX_FILE_SIZE cfg) (1024 * 1024) ;;
  Ok ("File size exceeds maximum of " ++ py_str L (PFloat mb) ++ "MB").

(** The body of the [try] block (lines 25-84).  A [return] inside it is an
    [Ok]; a raised exception is a [Raise]. *)
Definition try_block (W : World) (event : pyval) : result response :=
  body <- extract_body event ;;
  filename <- py_get body "filename" PNone ;;
  content_type <- py_get body "contentType" PNone ;;
  file_size <- py_get body "fileSize" (PInt 0) ;;
  if negb (truthy filename) || negb (truthy content_type) then
    Ok (error_response 400 missing_fields_message)
  else if negb (py_in_strs content_type (ALLOWED_FILE_TYPES cfg)) then
    Ok (error_response 400 (type_not_allowed_message content_type))
  else
    too_large <- py_gt_int file_size (MAX_FILE_SIZE cfg) ;;
    if (too_large : bool) then
      message <- size_exceeded_message ;;
      Ok (error_response 400 message)
    else
      safe_filename <- sanitize_filename_dyn filename ;;
      let key := file_key W safe_filename in
      presigned_url <- presign W key content_type ;;
      Ok (success_response presigned_url key).

(** [lambda_handler] (handler.py, lines 18-92), with the log statement of
    line 22 taken to succeed: the [try] block and the two [except] clauses,
    which turn every exception of the [try] block into an error envelope.
    Line 22 itself, which stands before the [try] and can raise on a deeply
    nested event, is in [lambda_handler_with_log] below; the two agree on
    every event the encoder can follow ([line_22_passes]). *)
Definition lambda_handler (W : World) (event : pyval) : result response :=
  _received <- Ok (json_dumps L event) ;;
  match try_block W event with
  | Ok r => Ok r
  | Raise e =>
      if is_ClientError e
      then Ok (error_response 500 "Failed to generate upload URL")
      else Ok (error_response 500 "Internal server error")
  end.

End Handler.

(** ** The log statement before the [try]

    Line 22, [print(f"Received event: {json.dumps(event)}")], is evaluated
    before the [try] block is entered.  The encoder enters one recursive
    call for every list and every dictionary it descends into, and raises
    [RecursionError] when the interpreter has no room left for one more. *)

(** The number of containers nested in one another in [v]. *)
Fixpoint nesting (v : pyval) : nat :=
  match v with
  | PList l => S (fold_right (fun x m => Nat.max (nesting x) m) O l)
  | PDict d => S (fold_right (fun kv m => Nat.max (nesting (snd kv)) m) O d)
  | _ => O
  end.

(** The [RecursionError] of the encoder. *)
Definition recursion_error : exn :=
  OtherException "maximum recursion depth exceeded while encoding a JSON object".

Section LogStatement.

Variable L : PyLib.
Variable cfg : Config.

(** The room the interpreter has left at line 22, counted in nested
    containers the encoder can still descend into. *)
Variable limit : nat.

Local Open Scope py_scope.

(** [json.dumps(v)] with room for [limit] nested containers. *)
Definition json_dumps_within (v : pyval) : result string :=
  if Nat.leb (nesting v) limit then Ok (json_dumps L v)
  else Raise recursion_error.

(** [lambda_handler] from its first statement on: line 22 outside the
    [try], then the [try] block with its two [except] clauses. *)
Definition lambda_handler_with_log (W : World) (event : pyval)
  : result response :=
  _received <- json_dumps_within event ;;
  match try_block L cfg W event with
  | Ok r => Ok r
  | Raise e =>
      if is_ClientError e
      then Ok (error_response L 500 "Failed to generate upload URL")
      else Ok (error_response L 500 "Internal server error")
  end.

End LogStatement.

(** ** A reference implementation of the library functions

    [PyLib] leaves [json.loads] and [float.__repr__] open; the general
    theorems hold for every such library.  The concrete runs below use this
    executable reference: a JSON decoder following [json.decoder] and
    [json.scanner], and the shortest round-trip rendering of floats. *)

Module RefLib.

(** *** Decimal text to float and back *)

Definition pow10 (k : Z) : Z := 10 ^ k.

(** The float nearest to [digits * 10^exp10], as [float(text)] computes it.
    The two early exits are exact: beyond them every value overflows to
    infinity, respectively rounds to zero. *)
Definition of_decimal (neg : bool) (digits exp10 : Z) : spec_float :=
  if digits =? 0 then S754_zero neg
  else
    let n := Z.of_nat (String.length (PyNum.str_of_int digits)) in
    if 310 <? exp10 + n then S754_infinity neg
    else if exp10 + n <? -330 then S754_zero neg
    else
      let d := if neg then - digits else digits in
      if 0 <=? exp10 then PyNum.of_ratio (d * pow10 exp10) 1
      else PyNum.of_ratio d (pow10 (- exp10)).

Definition sf_eqb (a b : spec_float) : bool :=
  match a, b with
  | S754_zero s, S754_zero s' => Bool.eqb s s'
  | S754_infinity s, S754_infinity s' => Bool.eqb s s'
  | S754_nan, S754_nan => true
  | S754_finite s m e, S754_finite s' m' e' =>
      Bool.eqb s s' && Pos.eqb m m' && (e =? e')
  | _, _ => false
  end.

(** [num / den >= 10^k] *)
Definition ge_pow10 (num den k : Z) : bool :=
  if 0 <=? k then den * pow10 k <=? num else den <=? num * pow10 (- k).

Fixpoint adjust_log10 (fuel : nat) (num den k : Z) : Z :=
  match fuel with
  | O => k
  | S fuel' =>
      if ge_pow10 num den (k + 1) then adjust_log10 fuel' num den (k + 1) else k
  end.

(** [floor (log10 (num / den))] for a positive ratio. *)
Definition floor_log10 (num den : Z) : Z :=
  let k0 := ((Z.log2 num - Z.log2 den - 1) * 30103) / 100000 - 1 in
  adjust_log10 8 num den k0.

(** The decimal with [p] significant digits that reads back as the float
    [m * 2^e], if there is one: the nearer of the two neighbours of the
    exact value among those that read back, and on a tie the one whose last
    digit is even.  The answer is the integer of digits and its decimal
    exponent. *)
Definition candidate (m : positive) (e : Z) (k : Z) (p : Z) : option (Z * Z) :=
  let num := if 0 <=? e then Z.pos m * 2 ^ e else Z.pos m in
  let den := if 0 <=? e then 1 else 2 ^ (- e) in
  let s := p - 1 - k in
  let num' := if 0 <=? s then num * pow10 s else num in
  let den' := if 0 <=? s then den else den * pow10 (- s) in
  let lo := num' / den' in
  let r := num' mod den' in
  let hi := lo + 1 in
  let target := binary_normalize PyNum.prec PyNum.emax (Z.pos m) e false in
  let ok_lo := sf_eqb (of_decimal false lo (- s)) target in
  let ok_hi := sf_eqb (of_decimal false hi (- s)) target in
  if ok_lo && ok_hi then
    if (2 * r <? den') || ((2 * r =? den') && Z.even lo)
    then Some (lo, - s) else Some (hi, - s)
  else if ok_lo then Some (lo, - s)
  else if ok_hi then Some (hi, - s)
  else None.

Fixpoint shortest (fuel : nat) (m : positive) (e k p : Z) : Z * Z :=
  match fuel with
  | O => (Z.pos m, 0)
  | S fuel' =>
      match candidate m e k p with
      | Some c => c
      | None => shortest fuel' m e k (p + 1)
      end
  end.

Fixpoint strip_zeros (fuel : nat) (d : Z) (x : Z) : Z * Z :=
  match fuel with
  | O => (d, x)
  | S fuel' =>
      if (d mod 10 =? 0) && negb (d =? 0)
      then strip_zeros fuel' (d / 10) (x + 1)
      else (d, x)
  end.

(** The digit string and the position of the decimal point for a finite
    positive float, as [_Py_dg_dtoa] in mode 0 reports them. *)
Definition float_digits (m : positive) (e : Z) : string * Z :=
  let num := if 0 <=? e then Z.pos m * 2 ^ e else Z.pos m in
  let den := if 0 <=? e then 1 else 2 ^ (- e) in
  let k := floor_log10 num den in
  let '(d, x) := shortest 17 m e k 1 in
  let '(d, x) := strip_zeros 400 d x in
  let ds := PyNum.str_of_int d in
  (ds, Z.of_nat (String.length ds) + x).

(** The layout rules of [float.__repr__]: exponent notation when the
    decimal point would sit more than 16 digits right or 4 or more zeros
    left of the first digit. *)
Definition layout (ds : string) (decpt : Z) : string :=
  let n := PyStr.len ds in
  if (decpt <=? -4) || (16 <? decpt) then
    let x := decpt - 1 in
    let mant :=
      if n =? 1 then ds else PyStr.slice_to 1 ds ++ "." ++ PyStr.slice_from 1 ds in
    let xs := PyNum.str_of_int (Z.abs x) in
    mant ++ "e" ++ (if x <? 0 then "-" else "+") ++ zero_pad 2 xs
  else if decpt <=? 0 then
    "0." ++ PyStr.repeat "0" (Z.to_nat (- decpt)) ++ ds
  else if n <=? decpt then
    ds ++ PyStr.repeat "0" (Z.to_nat (decpt - n)) ++ ".0"
  else PyStr.slice_to decpt ds ++ "." ++ PyStr.slice_from decpt ds.

Definition float_repr (f : spec_float) : string :=
  match f with
  | S754_nan => "nan"
  | S754_infinity false => "inf"
  | S754_infinity true => "-inf"
  | S754_zero false => "0.0"
  | S754_zero true => "-0.0"
  | S754_finite s m e =>
      let '(ds, decpt) := float_digits m e in
      (if s then "-" else EmptyString) ++ layout ds decpt
  end.

(** *** The JSON decoder *)

Definition is_ws (c : ascii) : bool :=
  let n := nat_of_ascii c in
  Nat.eqb n 32 || Nat.eqb n 9 || Nat.eqb n 10 || Nat.eqb n 13.

Fixpoint skip_ws (s : string) : string :=
  match s with
  | String c r => if is_ws c then skip_ws r else s
  | EmptyString => s
  end.

Definition digit_val (c : ascii) : option Z :=
  let n := Z.of_nat (nat_of_ascii c) in
  if (48 <=? n) && (n <=? 57) then Some (n - 48) else None.

Definition hex_val (c : ascii) : option Z :=
  let n := Z.of_nat (nat_of_ascii c) in
  if (48 <=? n) && (n <=? 57) then Some (n - 48)
  else if (97 <=? n) && (n <=? 102) then Some (n - 87)
  else if (65 <=? n) && (n <=? 70) then Some (n - 55)
  else None.

(** The longest run of decimal digits at the head of [s]: its value, its
    length, and what follows. *)
Fixpoint lex_digits (s : string) (acc : Z) (count : Z) : Z * Z * string :=
  match s with
  | String c r =>
      match digit_val c with
      | Some d => lex_digits r (10 * acc + d) (count + 1)
      | None => (acc, count, s)
      end
  | EmptyString => (acc, count, s)
  end.

(** The integer part [0|[1-9]\d*] of [NUMBER_RE]. *)
Definition lex_int_part (s : string) : option (Z * Z * string) :=
  match s with
  | String "0" r => Some (0, 1, r)
  | String c _ =>
      match digit_val c with
      | Some _ => Some (lex_digits s 0 0)
      | None => None
      end
  | EmptyString => None
  end.

(** The optional fraction [(\.\d+)?]: digits appended to the mantissa. *)
Definition lex_frac (s : string) (mant : Z) : option (Z * Z * string) :=
  match s with
  | String "." r =>
      match lex_digits r mant 0 with
      | (_, 0, _) => None
      | t => Some t
      end
  | _ => None
  end.

(** The optional exponent [([eE][-+]?\d+)?]. *)
Definition lex_exp (s : string) : option (Z * string) :=
  match s with
  | String c r =>
      if Ascii.eqb c "e" || Ascii.eqb c "E" then
        let '(neg, r') :=
          match r with
          | String "-" r' => (true, r')
          | String "+" r' => (false, r')
          | _ => (false, r)
          end in
        match lex_digits r' 0 0 with
        | (_, 0, _) => None
        | (x, _, rest) => Some (if neg then - x else x, rest)
        end
      else None
  | EmptyString => None
  end.

(** [sys.get_int_max_str_digits()] *)
Definition int_max_str_digits : Z := 4300.

(** A number at the head of [s]; [neg] tells whether a minus sign was read
    before it. *)
Definition lex_number (neg : bool) (s : string) : option (pyval * string) :=
  match lex_int_part s with
  | None => None
  | Some (i, n, r) =>
      let '(mant, fdigits, r1, has_frac) :=
        match lex_frac r i with
        | Some (m, k, r1) => (m, k, r1, true)
        | None => (i, 0, r, false)
        end in
      let '(x, r2, has_exp) :=
        match lex_exp r1 with
        | Some (x, r2) => (x, r2, true)
        | None => (0, r1, false)
        end in
      if has_frac || has_exp
      then Some (PFloat (of_decimal neg mant (x - fdigits)), r2)
      else if int_max_str_digits <? n then None
      else Some (PInt (if neg then - i else i), r2)
  end.

Definition strip_prefix (p s : string) : option string :=
  if String.prefix p s
  then Some (PyStr.drop (String.length p) s)
  else None.

(** The body of a string literal after its opening quote, in strict mode.
    A [\u] escape above U+00FF has no character in this model and is
    refused. *)
Fixpoint lex_string (fuel : nat) (s : string) : option (string * string) :=
  match fuel with
  | O => None
  | S fuel' =>
      match s with
      | EmptyString => None
      | String c r =>
          if Ascii.eqb c dquote then Some (EmptyString, r)
          else if Ascii.eqb c bs then
            match r with
            | String e r' =>
                let simple (x : ascii) :=
                  match lex_string fuel' r' with
                  | Some (t, rest) => Some (String x t, rest)
                  | None => None
                  end in
                if Ascii.eqb e dquote then simple dquote
                else if Ascii.eqb e bs then simple bs
                else if Ascii.eqb e "/" then simple "/"%char
                else if Ascii.eqb e "b" then simple "008"%char
                else if Ascii.eqb e "f" then simple "012"%char
                else if Ascii.eqb e "n" then simple "010"%char
                else if Ascii.eqb e "r" then simple "013"%char
                else if Ascii.eqb e "t" then simple "009"%char
                else if Ascii.eqb e "u" then
                  match r' with
                  | String h1 (String h2 (String h3 (String h4 r''))) =>
                      match hex_val h1, hex_val h2, hex_val h3, hex_val h4 with
                      | Some 0, Some 0, Some a, Some b =>
                          match lex_string fuel' r'' with
                          | Some (t, rest) =>
                              Some (String (ascii_of_nat (Z.to_nat (16 * a + b))) t, rest)
                          | None => None
                          end
                      | _, _, _, _ => None
                      end
                  | _ => None
                  end
                else None
            | EmptyString => None
            end
          else if Nat.ltb (nat_of_ascii c) 32 then None
          else
            match lex_string fuel' r with
            | Some (t, rest) => Some (String c t, rest)
            | None => None
            end
      end
  end.

(** [dict(pairs)]: a repeated key keeps its first position and takes the
    last value. *)
Fixpoint dict_set (d : list (string * pyval)) (k : string) (v : pyval)
  : list (string * pyval) :=
  match d with
  | [] => [(k, v)]
  | (k', v') :: d' =>
      if String.eqb k' k then (k', v) :: d' else (k', v') :: dict_set d' k v
  end.

(** [scan_once], [JSONArray] and [JSONObject].  [parse_array] and
    [parse_object] start where a value, respectively a key, is expected. *)
Fixpoint parse_value (fuel : nat) (s : string) : option (pyval * string) :=
  match fuel with
  | O => None
  | S fuel' =>
      match s with
      | EmptyString => None
      | String c r =>
          if Ascii.eqb c dquote then
            match lex_string (S (String.length r)) r with
            | Some (t, rest) => Some (PStr t, rest)
            | None => None
            end
          else if Ascii.eqb c "{" then
            match skip_ws r with
            | String "}" rest => Some (PDict [], rest)
            | r' => parse_object fuel' r' []
            end
          else if Ascii.eqb c "[" then
            match skip_ws r with
            | String "]" rest => Some (PList [], rest)
            | r' => parse_array fuel' r' []
            end
          else if Ascii.eqb c "n" then
            option_map (fun rest => (PNone, rest)) (strip_prefix "null" s)
          else if Ascii.eqb c "t" then
            option_map (fun rest => (PBool true, rest)) (strip_prefix "true" s)
          else if Ascii.eqb c "f" then
            option_map (fun rest => (PBool false, rest)) (strip_prefix "false" s)
          else
            let number :=
              if Ascii.eqb c "-" then lex_number true r else lex_number false s in
            match number with
            | Some res => Some res
            | None =>
                if Ascii.eqb c "N" then
                  option_map (fun rest => (PFloat S754_nan, rest))
                             (strip_prefix "NaN" s)
                else if Ascii.eqb c "I" then
                  option_map (fun rest => (PFloat (S754_infinity false), rest))
                             (strip_prefix "Infinity" s)
                else if Ascii.eqb c "-" then
                  option_map (fun rest => (PFloat (S754_infinity true), rest))
                             (strip_prefix "-Infinity" s)
                else None
            end
      end
  end

with parse_array (fuel : nat) (s : string) (acc : list pyval)
  : option (pyval * string) :=
  match fuel with
  | O => None
  | S fuel' =>
      match parse_value fuel' s with
      | None => None
      | Some (v, r) =>
          match skip_ws r with
          | String "]" rest => Some (PList (acc ++ [v]), rest)
          | String "," rest => parse_array fuel' (skip_ws rest) (acc ++ [v])
          | _ => None
          end
      end
  end

with parse_object (fuel : nat) (s : string) (acc : list (string * pyval))
  : option (pyval * string) :=
  match fuel with
  | O => None
  | S fuel' =>
      match s with
      | String c r =>
          if Ascii.eqb c dquote then
            match lex_string (S (String.length r)) r with
            | None => None
            | Some (k, r1) =>
                match skip_ws r1 with
                | String ":" r2 =>
                    match parse_value fuel' (skip_ws r2) with
                    | None => None
                    | Some (v, r3) =>
                        match skip_ws r3 with
                        | String "}" rest => Some (PDict (dict_set acc k v), rest)
                        | String "," rest =>
                            parse_object fuel' (skip_ws rest) (dict_set acc k v)
                        | _ => None
                        end
                    end
                | _ => None
                end
            end
          else None
      | EmptyString => None
      end
  end.

(** [json.loads]: one value between optional white space, and nothing
    after it. *)
Definition json_loads (s : string) : option pyval :=
  match parse_value (2 * String.length s + 2) (skip_ws s) with
  | Some (v, rest) =>
      match skip_ws rest with
      | EmptyString => Some v
      | _ => None
      end
  | None => None
  end.

(** The reference library. *)
Definition lib : PyLib :=
  Build_PyLib json_loads float_repr.

End RefLib.

(** ** Reading the handler's answer *)

Definition status_of (r : result response) : option Z :=
  match r with
  | Ok resp => Some (statusCode resp)
  | Raise _ => None
  end.

(** The condition of line 40, negated: both fields are truthy. *)
Definition has_required_fields (d : list (string * pyval)) : bool :=
  truthy (dict_get_default d "filename" PNone)
  && truthy (dict_get_default d "contentType" PNone).

(** The condition of line 44, negated. *)
Definition has_allowed_type (cfg : Config) (d : list (string * pyval)) : bool :=
  py_in_strs (dict_get_default d "contentType" PNone) (ALLOWED_FILE_TYPES cfg).

(** [file_size] of line 37. *)
Definition declared_size (d : list (string * pyval)) : pyval :=
  dict_get_default d "fileSize" (PInt 0).

(** [True] when one of the [dangerous_chars] occurs in [s]. *)
Definition has_dangerous_char (s : string) : bool :=
  existsb (fun char => PyStr.mem char s) dangerous_chars.

(** [isinstance(v, dict)] *)
Definition is_dict (v : pyval) : bool :=
  match v with
  | PDict _ => true
  | _ => false
  end.

(** [isinstance(v, str)] *)
Definition is_str (v : pyval) : bool :=
  match v with
  | PStr _ => true
  | _ => false
  end.

(** ** Decimal digit strings and calendar dates *)

(** The value of a digit string read from the left, Horner style. *)
Fixpoint horner (d : Decimal.uint) (acc : Z) : Z :=
  match d with
  | Decimal.Nil => acc
  | Decimal.D0 l => horner l (10 * acc + 0)
  | Decimal.D1 l => horner l (10 * acc + 1)
  | Decimal.D2 l => horner l (10 * acc + 2)
  | Decimal.D3 l => horner l (10 * acc + 3)
  | Decimal.D4 l => horner l (10 * acc + 4)
  | Decimal.D5 l => horner l (10 * acc + 5)
  | Decimal.D6 l => horner l (10 * acc + 6)
  | Decimal.D7 l => horner l (10 * acc + 7)
  | Decimal.D8 l => horner l (10 * acc + 8)
  | Decimal.D9 l => horner l (10 * acc + 9)
  end.

(** A date whose year has four digits, as [utcnow] returns them. *)
Definition is_calendar_date (d : datetime) : bool :=
  (1000 <=? year d) && (year d <=? 9999)
  && (1 <=? month d) && (month d <=? 12)
  && (1 <=? day d) && (day d <=? 31).

(** ** A sample deployment *)

Module Demo.

Definition cfg : Config :=
  {| UPLOAD_BUCKET := "uploads";
     ALLOWED_FILE_TYPES := ["image/png"; "image/jpeg"; "application/pdf"];
     MAX_FILE_SIZE := 10485760;
     PRESIGNED_URL_EXPIRY := 300;
     KMS_KEY_ID := "alias/uploads" |}.

Definition today : datetime := {| year := 2024; month := 3; day := 9 |}.

Definition signer_ok (method : string) (p : PresignParams) (expires : Z)
  : result string :=
  Ok ("https://" ++ Bucket p ++ ".s3.amazonaws.com/" ++ Key p ++ "?X-Amz-Expires="
      ++ PyNum.str_of_int expires).

Definition signer_client_error (method : string) (p : PresignParams) (expires : Z)
  : result string :=
  Raise (ClientError "An error occurred (AccessDenied) when calling the PutObject operation").

Definition signer_no_credentials (method : string) (p : PresignParams) (expires : Z)
  : result string :=
  Raise (OtherException "Unable to locate credentials").

Definition world (random : Z) : World :=
  {| utcnow := today; urandom := random; generate_presigned_url := signer_ok |}.

Definition world_with (signer : string -> PresignParams -> Z -> result string)
  : World :=
  {| utcnow := today; urandom := 0; generate_presigned_url := signer |}.

Definition request (filename content_type : string) (extra : list (string * pyval))
  : list (string * pyval) :=
  [("filename", PStr filename); ("contentType", PStr content_type)] ++ extra.

Definition photo : list (string * pyval) :=
  request "photo.png" "image/png" [("fileSize", PInt 2048)].

Definition traversal : list (string * pyval) :=
  request "../../etc/passwd" "image/png" [("fileSize", PInt 10485760)].

(** The event as API Gateway delivers it: the request serialised under
    ['body']. *)
Definition api_gateway_event (d : list (string * pyval)) : pyval :=
  PDict [("body", PStr (json_dumps RefLib.lib (PDict d)))].

Definition long_extension : string := "a." ++ PyStr.repeat "b" 300.

(** [n + 1] lists nested in one another. *)
Fixpoint nested (n : nat) : pyval :=
  match n with
  | O => PList []
  | S n' => PList [nested n']
  end.

(** A valid request with one more field, nested 994 containers deep in
    all, and an interpreter with room for 993 at line 22. *)
Definition deep_event : pyval :=
  PDict (photo ++ [("padding", nested 992)]).

Definition encoder_room : nat := 993.

End Demo.

(** * Properties *)

(** ** Sample runs of the library models *)

Example sanitize_traversal :
  sanitize_filename "../../etc/passwd" = "passwd".
Proof. reflexivity. Qed.

Example sanitize_backslash :
  sanitize_filename "..\..\a<b>.txt" = ".._.._a_b_.txt".
Proof. reflexivity. Qed.

Example splitext_examples :
  PosixPath.splitext "archive.tar.gz" = ("archive.tar", ".gz")
  /\ PosixPath.splitext ".bashrc" = (".bashrc", EmptyString)
  /\ PosixPath.splitext "...a" = ("...a", EmptyString)
  /\ PosixPath.splitext "..a.b" = ("..a", ".b")
  /\ PosixPath.splitext "dir.d/file" = ("dir.d/file", EmptyString).
Proof. repeat split; reflexivity. Qed.

Example uuid4_zero : uuid4 0 = "00000000-0000-4000-8000-000000000000".
Proof. reflexivity. Qed.

Example uuid4_ones :
  uuid4 (2 ^ 128 - 1) = "ffffffff-ffff-4fff-bfff-ffffffffffff".
Proof. reflexivity. Qed.

Example strftime_example :
  strftime_Ymd {| year := 2024; month := 3; day := 9 |} = "2024/03/09".
Proof. reflexivity. Qed.

Example sanitize_dangerous_chars :
  sanitize_filename ("a<b>c:d|e?f*g" ++ String dquote (String "000" ".txt"))
  = "a_b_c_d_e_f_g__.txt".
Proof. reflexivity. Qed.

Example sanitize_truncates_stem :
  sanitize_filename (PyStr.repeat "s" 500 ++ ".extension")
  = PyStr.repeat "s" 190 ++ ".extension".
Proof. vm_compute; reflexivity. Qed.

Example float_repr_examples :
  RefLib.float_repr (RefLib.of_decimal false 1 (-1)) = "0.1"
  /\ RefLib.float_repr (RefLib.of_decimal false 30000000000000004 (-17))
     = "0.30000000000000004"
  /\ RefLib.float_repr (RefLib.of_decimal false 1 16) = "1e+16"
  /\ RefLib.float_repr (RefLib.of_decimal false 1 (-5)) = "1e-05"
  /\ RefLib.float_repr (RefLib.of_decimal true 25 (-1)) = "-2.5"
  /\ RefLib.float_repr (RefLib.of_decimal false 5 (-324)) = "5e-324"
  /\ RefLib.float_repr (PyNum.of_ratio 2 3) = "0.6666666666666666"
  /\ RefLib.float_repr (PyNum.of_ratio 515 (1024 * 1024)) = "0.0004911422729492188"
  /\ PyNum.int_truediv (2 ^ 1044) (1024 * 1024) = Raise OverflowError.
Proof. repeat split; vm_compute; reflexivity. Qed.

Example json_loads_examples :
  RefLib.json_loads (json_dumps RefLib.lib (PDict Demo.photo)) = Some (PDict Demo.photo)
  /\ RefLib.json_loads "[1, -2, true, null, [], {}]"
     = Some (PList [PInt 1; PInt (-2); PBool true; PNone; PList []; PDict []])
  /\ RefLib.json_loads "[1,]" = None
  /\ RefLib.json_loads "[01]" = None
  /\ RefLib.json_loads "{filename: 1}" = None
  /\ RefLib.json_loads "12 13" = None
  /\ RefLib.json_loads EmptyString = None.
Proof. repeat split; vm_compute; reflexivity. Qed.

Example event_shapes :
  status_of (lambda_handler RefLib.lib Demo.cfg (Demo.world 7) (PInt 5)) = Some 500
  /\ status_of (lambda_handler RefLib.lib Demo.cfg (Demo.world 7) (PStr "body"))
     = Some 500
  /\ status_of (lambda_handler RefLib.lib Demo.cfg (Demo.world 7)
                  (PDict [("body", PDict Demo.photo)])) = Some 200
  /\ status_of (lambda_handler RefLib.lib Demo.cfg (Demo.world 7)
                  (Demo.api_gateway_event Demo.photo)) = Some 200
  /\ status_of (lambda_handler RefLib.lib Demo.cfg (Demo.world 7)
                  (PDict Demo.photo)) = Some 200.
Proof. repeat split; vm_compute; reflexivity. Qed.


(** ** Strings *)

Section StringFacts.

Lemma length_append (a b : string) :
  String.length (a ++ b) = (String.length a + String.length b)%nat.
Proof. induction a as [|c a IH]; simpl; [reflexivity | now rewrite IH]. Qed.

Lemma length_take (n : nat) (s : string) :
  String.length (PyStr.take n s) = Nat.min n (String.length s).
Proof.
  revert s; induction n as [|n IH]; intros [|c s]; simpl; try reflexivity.
  now rewrite IH.
Qed.

Lemma mem_append (c : ascii) (a b : string) :
  PyStr.mem c (a ++ b) = PyStr.mem c a || PyStr.mem c b.
Proof.
  induction a as [|x a IH]; simpl; [reflexivity|].
  now rewrite IH, orb_assoc.
Qed.

Lemma mem_take (c : ascii) (n : nat) (s : string) :
  PyStr.mem c s = false -> PyStr.mem c (PyStr.take n s) = false.
Proof.
  revert s; induction n as [|n IH]; intros [|x s]; simpl; try reflexivity.
  intros H; apply orb_false_iff in H as [Hx Hs].
  now rewrite Hx, IH.
Qed.

Lemma mem_drop (c : ascii) (n : nat) (s : string) :
  PyStr.mem c s = false -> PyStr.mem c (PyStr.drop n s) = false.
Proof.
  revert s; induction n as [|n IH]; intros [|x s]; simpl; try easy.
  intros H; apply orb_false_iff in H as [_ Hs]. now apply IH.
Qed.

Lemma mem_replace_old (old new : ascii) (s : string) :
  new <> old -> PyStr.mem old (PyStr.replace old new s) = false.
Proof.
  intros Hneq; induction s as [|x s IH]; simpl; [reflexivity|].
  rewrite IH, orb_false_r.
  destruct (Ascii.eqb_spec x old) as [->|Hx]; now apply Ascii.eqb_neq.
Qed.

Lemma mem_replace_other (c old new : ascii) (s : string) :
  new <> c -> PyStr.mem c s = false ->
  PyStr.mem c (PyStr.replace old new s) = false.
Proof.
  intros Hneq; induction s as [|x s IH]; simpl; [reflexivity|].
  intros H; apply orb_false_iff in H as [Hx Hs].
  rewrite (IH Hs), orb_false_r.
  destruct (Ascii.eqb x old); [now apply Ascii.eqb_neq | exact Hx].
Qed.

(** Two concatenations with left parts of equal length agree part by part. *)
Lemma append_eq_length (a a' b b' : string) :
  String.length a = String.length a' -> a ++ b = a' ++ b' -> a = a' /\ b = b'.
Proof.
  revert a'; induction a as [|c a IH]; intros [|c' a']; simpl; try discriminate.
  - auto.
  - intros Hl He. injection Hl as Hl. injection He as -> He.
    destruct (IH _ Hl He) as [-> ->]. auto.
Qed.

Lemma append_inv_head (a b b' : string) : a ++ b = a ++ b' -> b = b'.
Proof. intros H. now apply (append_eq_length a a b b') in H. Qed.

Lemma append_assoc (a b c : string) : (a ++ b) ++ c = a ++ b ++ c.
Proof. induction a as [|x a IH]; simpl; [reflexivity | now rewrite IH]. Qed.

End StringFacts.

(** ** [sanitize_filename] *)

Section Sanitize.

(** After the replacement loop none of the dangerous characters is left. *)
Lemma replace_loop_removes (chars : list ascii) (c : ascii) (s : string) :
  ~ In "_"%char chars ->
  In c chars \/ (c <> "_"%char /\ PyStr.mem c s = false) ->
  PyStr.mem c (fold_left (fun fn char => PyStr.replace char "_"%char fn) chars s)
  = false.
Proof.
  revert s; induction chars as [|d chars IH]; intros s Hu Hc; simpl.
  - destruct Hc as [[]|[_ H]]; exact H.
  - assert (Hd : "_"%char <> d) by (intros E; apply Hu; now left).
    assert (Hu' : ~ In "_"%char chars) by (intros E; apply Hu; now right).
    assert (Hcu : In c (d :: chars) -> c <> "_"%char)
      by (intros Hin E; subst c; exact (Hu Hin)).
    apply IH; [exact Hu'|].
    destruct Hc as [[->|Hin]|[Hne Hm]].
    + right; split; [apply Hcu; now left | now apply mem_replace_old].
    + now left.
    + right; split; [exact Hne | apply mem_replace_other; [congruence | exact Hm]].
Qed.

Lemma replace_dangerous_clean (c : ascii) (s : string) :
  In c dangerous_chars -> PyStr.mem c (replace_dangerous s) = false.
Proof.
  intros Hin. apply replace_loop_removes; [|now left].
  unfold dangerous_chars; simpl.
  intros H; repeat (destruct H as [H|H]; [discriminate H|]); exact H.
Qed.

Lemma splitext_parts (c : ascii) (p : string) :
  PyStr.mem c p = false ->
  PyStr.mem c (fst (PosixPath.splitext p)) = false
  /\ PyStr.mem c (snd (PosixPath.splitext p)) = false.
Proof.
  intros H. unfold PosixPath.splitext.
  destruct (_ && _); simpl; unfold PyStr.slice_to, PyStr.slice_from;
    auto using mem_take, mem_drop.
Qed.

(** No dangerous character survives in the sanitized name, truncated or
    not. *)
Lemma sanitize_filename_clean (c : ascii) (filename : string) :
  In c dangerous_chars -> PyStr.mem c (sanitize_filename filename) = false.
Proof.
  intros Hin. unfold sanitize_filename.
  pose proof (replace_dangerous_clean c (PosixPath.basename filename) Hin) as Hc.
  destruct (_ >? _); [|exact Hc].
  destruct (splitext_parts c _ Hc) as [Hn He].
  destruct (PosixPath.splitext _) as [name ext]; simpl in *.
  rewrite mem_append, He, orb_false_r.
  now apply mem_take.
Qed.

(** When the name is cut, the result is a prefix of the stem followed by the
    extension that [splitext] found. *)
Lemma sanitize_filename_keeps_ext (filename : string) :
  let cleaned := replace_dangerous (PosixPath.basename filename) in
  PyStr.len cleaned > max_length ->
  exists kept,
    sanitize_filename filename = kept ++ snd (PosixPath.splitext cleaned)
    /\ kept = PyStr.slice_to (max_length - PyStr.len (snd (PosixPath.splitext cleaned)))
                             (fst (PosixPath.splitext cleaned)).
Proof.
  intros cleaned Hlen. unfold sanitize_filename. fold cleaned.
  apply Z.gtb_gt in Hlen as ->.
  destruct (PosixPath.splitext cleaned) as [name ext]; simpl.
  eexists; split; reflexivity.
Qed.

(** The length bound holds as long as the extension itself fits. *)
Lemma sanitize_filename_bound (filename : string) :
  PyStr.len (snd (PosixPath.splitext
                    (replace_dangerous (PosixPath.basename filename))))
  <= max_length ->
  PyStr.len (sanitize_filename filename) <= max_length.
Proof.
  unfold sanitize_filename.
  set (cleaned := replace_dangerous _).
  destruct (Z.gtb_spec (PyStr.len cleaned) max_length) as [Hgt|Hle]; [|intros _; exact Hle].
  destruct (PosixPath.splitext cleaned) as [name ext]; cbn [fst snd].
  intros Hext. unfold PyStr.len in *.
  rewrite length_append. unfold PyStr.slice_to. rewrite length_take.
  unfold PyStr.clamp, PyStr.len, max_length in *.
  destruct (Z.ltb_spec (200 - Z.of_nat (String.length ext)) 0); lia.
Qed.

End Sanitize.

(** ** Identifiers and storage keys *)

Section Keys.

Lemma hexdigit_not_slash (n : Z) : Ascii.eqb (PyNum.hexdigit n) "/" = false.
Proof.
  destruct n as [|p|p]; try reflexivity.
  do 4 (destruct p as [p|p|]; try reflexivity).
Qed.

Lemma hex_fixed_no_slash (w : nat) (n : Z) :
  PyStr.mem "/" (PyNum.hex_fixed w n) = false.
Proof.
  induction w as [|w IH]; simpl; [reflexivity|].
  unfold PyNum.nibble. now rewrite hexdigit_not_slash, IH.
Qed.

Lemma length_hex_fixed (w : nat) (n : Z) :
  String.length (PyNum.hex_fixed w n) = w.
Proof. induction w as [|w IH]; simpl; [reflexivity | now rewrite IH]. Qed.

Lemma length_slice (i j : Z) (s : string) :
  0 <= i <= j -> j <= PyStr.len s ->
  String.length (PyStr.slice i j s) = Z.to_nat (j - i).
Proof.
  intros Hij Hj. unfold PyStr.slice, PyStr.clamp, PyStr.len in *.
  rewrite length_take.
  destruct (Z.ltb_spec i 0), (Z.ltb_spec j 0); try lia.
  assert (Hd : forall n t, String.length (PyStr.drop n t) = (String.length t - n)%nat).
  { induction n as [|n IH]; intros [|c t]; simpl; auto. }
  rewrite Hd. lia.
Qed.

Lemma mem_slice (c : ascii) (i j : Z) (s : string) :
  PyStr.mem c s = false -> PyStr.mem c (PyStr.slice i j s) = false.
Proof. intros H. unfold PyStr.slice. now apply mem_take, mem_drop. Qed.

(** A rendered UUID has 36 characters, whatever the number. *)
Lemma length_uuid_str (n : Z) : String.length (uuid_str n) = 36%nat.
Proof.
  unfold uuid_str.
  assert (Hl : PyStr.len (PyNum.hex_fixed 32 n) = 32)
    by (unfold PyStr.len; now rewrite length_hex_fixed).
  rewrite !length_append, !length_slice by lia.
  unfold PyStr.slice_from, PyStr.clamp. rewrite Hl.
  assert (Hd : forall k t, String.length (PyStr.drop k t) = (String.length t - k)%nat).
  { induction k as [|k IH]; intros [|c t]; simpl; auto. }
  rewrite Hd, length_hex_fixed. reflexivity.
Qed.

Lemma uuid_str_no_slash (n : Z) : PyStr.mem "/" (uuid_str n) = false.
Proof.
  unfold uuid_str.
  pose proof (hex_fixed_no_slash 32 n) as H.
  rewrite !mem_append, !mem_slice by exact H.
  unfold PyStr.slice_from. now rewrite mem_drop.
Qed.

(** The storage key is the date partition, a slash, and one more path
    segment. *)
Lemma file_key_shape (W : World) (safe : string) :
  file_key W safe
  = strftime_Ymd (utcnow W) ++ "/" ++ (uuid4 (urandom W) ++ "-" ++ safe).
Proof. reflexivity. Qed.

(** Keys of the same day with different identifiers differ, whatever the
    two file names are. *)
Lemma file_key_distinct (W1 W2 : World) (safe1 safe2 : string) :
  utcnow W1 = utcnow W2 ->
  uuid4 (urandom W1) <> uuid4 (urandom W2) ->
  file_key W1 safe1 <> file_key W2 safe2.
Proof.
  intros Hd Hu He. apply Hu.
  rewrite !file_key_shape, Hd in He.
  do 2 apply append_inv_head in He.
  apply append_eq_length in He; [apply He|].
  unfold uuid4. now rewrite !length_uuid_str.
Qed.

End Keys.

(** ** The handler, step by step *)

Section HandlerFacts.

Variable L : PyLib.
Variable cfg : Config.

Lemma lambda_handler_catches (W : World) (event : pyval) :
  lambda_handler L cfg W event
  = match try_block L cfg W event with
    | Ok r => Ok r
    | Raise e =>
        if is_ClientError e
        then Ok (error_response L 500 "Failed to generate upload URL")
        else Ok (error_response L 500 "Internal server error")
    end.
Proof. reflexivity. Qed.

(** The [try] block on a request that is a dictionary: the three checks in
    their order, then the key and the signer. *)
Lemma try_block_dict (W : World) (event : pyval) (d : list (string * pyval)) :
  extract_body L event = Ok (PDict d) ->
  try_block L cfg W event
  = if negb (has_required_fields d) then
      Ok (error_response L 400 missing_fields_message)
    else if negb (has_allowed_type cfg d) then
      Ok (error_response L 400
            (type_not_allowed_message L (dict_get_default d "contentType" PNone)))
    else
      bind (py_gt_int (declared_size d) (MAX_FILE_SIZE cfg)) (fun too_large =>
        if (too_large : bool) then
          bind (size_exceeded_message L cfg) (fun message =>
            Ok (error_response L 400 message))
        else
          bind (sanitize_filename_dyn (dict_get_default d "filename" PNone))
            (fun safe_filename =>
               bind (presign cfg W (file_key W safe_filename)
                             (dict_get_default d "contentType" PNone))
                 (fun presigned_url =>
                    Ok (success_response L cfg presigned_url
                          (file_key W safe_filename))))).
Proof.
  intros H. unfold try_block. rewrite H. cbn [bind py_get].
  unfold has_required_fields, has_allowed_type, declared_size.
  rewrite negb_andb. reflexivity.
Qed.

(** A request that is not a dictionary has no [get]. *)
Lemma try_block_not_dict (W : World) (event body : pyval) :
  extract_body L event = Ok body ->
  (forall d, body <> PDict d) ->
  try_block L cfg W event = Raise AttributeError.
Proof.
  intros H Hnd. unfold try_block. rewrite H. cbn [bind].
  destruct body; try reflexivity. now destruct (Hnd d).
Qed.

(** Whatever the [try] block returns is one of the two envelopes. *)
Lemma try_block_returns (W : World) (event : pyval) (r : response) :
  try_block L cfg W event = Ok r ->
  (exists message, r = error_response L 400 message)
  \/ (exists url key, r = success_response L cfg url key).
Proof.
  destruct (extract_body L event) as [body|e] eqn:Hb;
    [|unfold try_block; rewrite Hb; discriminate].
  destruct body;
    try (rewrite (try_block_not_dict W _ _ Hb) by discriminate; discriminate).
  rewrite (try_block_dict W _ _ Hb).
  destruct (negb (has_required_fields d)); [intros [= <-]; left; eauto|].
  destruct (negb (has_allowed_type cfg d)); [intros [= <-]; left; eauto|].
  destruct (py_gt_int _ _) as [[|]|]; cbn [bind]; try discriminate.
  - destruct (size_exceeded_message L cfg); cbn [bind]; try discriminate.
    intros [= <-]; left; eauto.
  - destruct (sanitize_filename_dyn _); cbn [bind]; try discriminate.
    destruct (presign _ _ _ _); cbn [bind]; try discriminate.
    intros [= <-]; right; eauto.
Qed.

(** The only exception of the [try] block that is a [ClientError] comes
    from the signer. *)
Lemma extract_body_never_ClientError (event : pyval) (e : exn) :
  extract_body L event = Raise e -> is_ClientError e = false.
Proof.
  unfold extract_body.
  destruct event; cbn [py_contains_str bind]; try (intros [= <-]; reflexivity).
  - destruct (PyStr.contains _ _); cbn; [intros [= <-]; reflexivity | discriminate].
  - destruct (existsb _ _); cbn; [intros [= <-]; reflexivity | discriminate].
  - unfold py_getitem_str.
    destruct (dict_get d "body") as [b|]; cbn [bind]; [|discriminate].
    destruct b; try discriminate.
    destruct (json_loads L s); [discriminate | intros [= <-]; reflexivity].
Qed.

End HandlerFacts.

(** ** The handler against its specification *)

(** C1, as the code has it: when the event holds under [body] a string that
    [json.loads] rejects, the handler answers with status 500 and the
    message "Internal server error" (the decoding error is caught by the
    catch-all clause; there is no 400 for it). *)
Theorem C1_undecodable_body_is_500
  (L : PyLib) (cfg : Config) (W : World) (d : list (string * pyval)) (s : string) :
  dict_get d "body" = Some (PStr s) ->
  json_loads L s = None ->
  lambda_handler L cfg W (PDict d)
  = Ok (error_response L 500 "Internal server error")
  /\ status_of (lambda_handler L cfg W (PDict d)) = Some 500.
Proof.
  intros Hb Hj.
  assert (H : lambda_handler L cfg W (PDict d)
              = Ok (error_response L 500 "Internal server error")).
  { rewrite lambda_handler_catches. unfold try_block, extract_body.
    cbn [py_contains_str py_getitem_str bind]. rewrite Hb. cbn [bind].
    rewrite Hj. reflexivity. }
  split; [exact H | now rewrite H].
Qed.

Lemma C1_undecodable_body_is_500_witness :
  dict_get [("body", PStr "{filename: photo.png")] "body"
  = Some (PStr "{filename: photo.png")
  /\ json_loads RefLib.lib "{filename: photo.png" = None
  /\ status_of (lambda_handler RefLib.lib Demo.cfg (Demo.world 7)
                  (PDict [("body", PStr "{filename: photo.png")]))
     = Some 500.
Proof.
  split; [reflexivity|]. split; [vm_compute; reflexivity|].
  apply (C1_undecodable_body_is_500 RefLib.lib Demo.cfg (Demo.world 7)
           [("body", PStr "{filename: photo.png")] "{filename: photo.png");
    vm_compute; reflexivity.
Defined.

(** C1 as stated fails: for the body ["not json"] the status is 500, not
    400. *)
Lemma C1_undecodable_body_is_not_400 :
  json_loads RefLib.lib "not json" = None
  /\ status_of (lambda_handler RefLib.lib Demo.cfg (Demo.world 7)
                  (PDict [("body", PStr "not json")])) = Some 500
  /\ status_of (lambda_handler RefLib.lib Demo.cfg (Demo.world 7)
                  (PDict [("body", PStr "not json")])) <> Some 400.
Proof.
  split; [vm_compute; reflexivity|].
  split; [vm_compute; reflexivity | vm_compute; discriminate].
Qed.

(** From the [try] on nothing escapes: what the [try] block returns is
    returned (the success envelope or a 400), and an exception raised in it
    becomes the 500 envelope chosen by its class. *)
Lemma try_block_never_escapes
  (L : PyLib) (cfg : Config) (W : World) (event : pyval) :
  exists r,
    lambda_handler L cfg W event = Ok r
    /\ headers r = response_headers
    /\ match try_block L cfg W event with
       | Ok r' =>
           r = r'
           /\ ((exists url key, r = success_response L cfg url key)
               \/ (exists message, r = error_response L 400 message))
       | Raise e =>
           r = error_response L 500
                 (if is_ClientError e then "Failed to generate upload URL"
                  else "Internal server error")
       end.
Proof.
  rewrite lambda_handler_catches.
  destruct (try_block L cfg W event) as [r|e] eqn:Ht.
  - exists r. split; [reflexivity|].
    destruct (try_block_returns L cfg W event r Ht) as [[m ->]|[url [key ->]]].
    + split; [reflexivity|]. split; [reflexivity|]. right. eauto.
    + split; [reflexivity|]. split; [reflexivity|]. left. eauto.
  - destruct (is_ClientError e); eexists; repeat split.
Qed.

(** Line 22 decides whether the [try] is reached at all: an event nested
    deeper than the encoder has room for raises [RecursionError] out of the
    handler; on any other event the handler is [lambda_handler]. *)
Lemma line_22_escapes
  (L : PyLib) (cfg : Config) (limit : nat) (W : World) (event : pyval) :
  (limit < nesting event)%nat ->
  lambda_handler_with_log L cfg limit W event = Raise recursion_error.
Proof.
  intros H. unfold lambda_handler_with_log, json_dumps_within.
  apply Nat.leb_gt in H. now rewrite H.
Qed.

Lemma line_22_passes
  (L : PyLib) (cfg : Config) (limit : nat) (W : World) (event : pyval) :
  (nesting event <= limit)%nat ->
  lambda_handler_with_log L cfg limit W event = lambda_handler L cfg W event.
Proof.
  intros H. unfold lambda_handler_with_log, json_dumps_within.
  apply Nat.leb_le in H. now rewrite H.
Qed.

(** C8, at an event where the code lets an exception escape.  The event is
    a valid request with one more field that holds lists nested in one
    another, 994 containers deep in all, and the interpreter has room for
    993 at line 22.  [json.dumps(event)] of line 22, which stands before
    the [try], raises [RecursionError], and no [except] clause is in reach:
    the handler returns no envelope.  From the [try] on the same event
    would have been answered with status 200. *)
Theorem C8_recursion_error_escapes_line_22 :
  nesting Demo.deep_event = 994%nat
  /\ RefLib.json_loads (json_dumps RefLib.lib Demo.deep_event)
     = Some Demo.deep_event
  /\ lambda_handler_with_log RefLib.lib Demo.cfg Demo.encoder_room
       (Demo.world 7) Demo.deep_event
     = Raise recursion_error
  /\ status_of (lambda_handler_with_log RefLib.lib Demo.cfg Demo.encoder_room
                  (Demo.world 7) Demo.deep_event) = None
  /\ status_of (lambda_handler RefLib.lib Demo.cfg (Demo.world 7) Demo.deep_event)
     = Some 200.
Proof. repeat split; vm_compute; reflexivity. Qed.

(** C2, at an input where the code misses the bound: a name whose extension
    alone is longer than 200 characters.  [splitext] gives the stem ["a"]
    and an extension of 301 characters; [max_length - len(ext)] is negative,
    the slice of the stem is empty, and the result is the whole extension:
    301 characters, more than the 200 the function is written to allow. *)
Theorem C2_long_extension_exceeds_limit :
  PosixPath.splitext Demo.long_extension = ("a", "." ++ PyStr.repeat "b" 300)
  /\ sanitize_filename Demo.long_extension = "." ++ PyStr.repeat "b" 300
  /\ PyStr.len (sanitize_filename Demo.long_extension) = 301
  /\ max_length < PyStr.len (sanitize_filename Demo.long_extension).
Proof. repeat split; vm_compute; reflexivity. Qed.

(** C3: the sanitized name holds no slash and no backslash, and the storage
    key is the date partition followed by a slash and exactly one further
    path segment, which is neither [.] nor [..]. *)
Theorem C3_sanitized_name_stays_under_prefix (W : World) (filename : string) :
  PyStr.mem "/" (sanitize_filename filename) = false
  /\ PyStr.mem "\" (sanitize_filename filename) = false
  /\ exists segment,
       file_key W (sanitize_filename filename)
       = strftime_Ymd (utcnow W) ++ "/" ++ segment
       /\ PyStr.mem "/" segment = false
       /\ segment <> "." /\ segment <> "..".
Proof.
  assert (Hs : PyStr.mem "/" (sanitize_filename filename) = false)
    by (apply sanitize_filename_clean; unfold dangerous_chars; simpl; auto 10).
  assert (Hb : PyStr.mem "\" (sanitize_filename filename) = false)
    by (apply sanitize_filename_clean; unfold dangerous_chars; simpl; auto 10).
  repeat split; try assumption.
  exists (uuid4 (urandom W) ++ "-" ++ sanitize_filename filename).
  split; [apply file_key_shape|].
  assert (Hlen : (36 < String.length
                        (uuid4 (urandom W) ++ "-" ++ sanitize_filename filename))%nat).
  { rewrite !length_append. unfold uuid4. rewrite length_uuid_str. simpl. lia. }
  repeat split.
  - rewrite !mem_append. unfold uuid4. rewrite uuid_str_no_slash, Hs. reflexivity.
  - intros E. rewrite E in Hlen. simpl in Hlen. lia.
  - intros E. rewrite E in Hlen. simpl in Hlen. lia.
Qed.

Section Inversion.

Variable L : PyLib.
Variable cfg : Config.

(** A status of 200 is only reached along the path that validates the
    request, builds the key and obtains a URL. *)
Lemma lambda_handler_200_inv (W : World) (event : pyval) (r : response) :
  lambda_handler L cfg W event = Ok r ->
  statusCode r = 200 ->
  exists d filename url,
    extract_body L event = Ok (PDict d)
    /\ dict_get_default d "filename" PNone = PStr filename
    /\ r = success_response L cfg url (file_key W (sanitize_filename filename)).
Proof.
  rewrite lambda_handler_catches.
  destruct (try_block L cfg W event) as [r'|e] eqn:Ht.
  2:{ destruct (is_ClientError e); intros [= <-]; discriminate. }
  intros [= ->] Hs. revert Ht.
  destruct (extract_body L event) as [body|e] eqn:Hb;
    [|unfold try_block; rewrite Hb; discriminate].
  destruct body;
    try (rewrite (try_block_not_dict L cfg W _ _ Hb) by discriminate; discriminate).
  rewrite (try_block_dict L cfg W _ _ Hb).
  destruct (negb (has_required_fields d));
    [intros [= <-]; discriminate|].
  destruct (negb (has_allowed_type cfg d));
    [intros [= <-]; discriminate|].
  destruct (py_gt_int _ _) as [[|]|]; cbn [bind]; try discriminate.
  - destruct (size_exceeded_message L cfg); cbn [bind]; try discriminate.
    intros [= <-]; discriminate.
  - destruct (dict_get_default d "filename" PNone) eqn:Hf;
      cbn [sanitize_filename_dyn bind]; try discriminate.
    destruct (presign _ _ _ _) as [url|]; cbn [bind]; try discriminate.
    intros [= <-]. exists d, s, url. auto.
Qed.

End Inversion.

(** C6: the key embeds the identifier drawn for the call, so two calls on
    the same day whose identifiers differ produce different keys: for the
    same request, and for any two file names. *)
Theorem C6_distinct_identifiers_distinct_keys
  (L : PyLib) (cfg : Config) (W1 W2 : World) (event : pyval) (r1 r2 : response) :
  utcnow W1 = utcnow W2 ->
  uuid4 (urandom W1) <> uuid4 (urandom W2) ->
  lambda_handler L cfg W1 event = Ok r1 -> statusCode r1 = 200 ->
  lambda_handler L cfg W2 event = Ok r2 -> statusCode r2 = 200 ->
  exists filename url1 url2,
    let key1 := file_key W1 (sanitize_filename filename) in
    let key2 := file_key W2 (sanitize_filename filename) in
    r1 = success_response L cfg url1 key1
    /\ r2 = success_response L cfg url2 key2
    /\ key1 = strftime_Ymd (utcnow W1) ++ "/" ++ uuid4 (urandom W1) ++ "-"
              ++ sanitize_filename filename
    /\ key1 <> key2
    /\ (forall safe1 safe2, file_key W1 safe1 <> file_key W2 safe2).
Proof.
  intros Hd Hu H1 S1 H2 S2.
  destruct (lambda_handler_200_inv L cfg W1 event r1 H1 S1)
    as (d1 & f1 & u1 & Hb1 & Hf1 & ->).
  destruct (lambda_handler_200_inv L cfg W2 event r2 H2 S2)
    as (d2 & f2 & u2 & Hb2 & Hf2 & ->).
  rewrite Hb1 in Hb2. injection Hb2 as <-.
  rewrite Hf1 in Hf2. injection Hf2 as <-.
  exists f1, u1, u2. cbv zeta.
  repeat split; auto using file_key_distinct.
Qed.

Lemma C6_distinct_identifiers_distinct_keys_witness :
  utcnow (Demo.world 1) = utcnow (Demo.world 2)
  /\ uuid4 (urandom (Demo.world 1)) <> uuid4 (urandom (Demo.world 2))
  /\ status_of (lambda_handler RefLib.lib Demo.cfg (Demo.world 1) (PDict Demo.photo))
     = Some 200
  /\ status_of (lambda_handler RefLib.lib Demo.cfg (Demo.world 2) (PDict Demo.photo))
     = Some 200
  /\ file_key (Demo.world 1) "photo.png" <> file_key (Demo.world 2) "photo.png".
Proof.
  split; [reflexivity|].
  split; [vm_compute; discriminate|].
  split; [vm_compute; reflexivity|].
  split; [vm_compute; reflexivity|].
  destruct (C6_distinct_identifiers_distinct_keys RefLib.lib Demo.cfg
              (Demo.world 1) (Demo.world 2) (PDict Demo.photo)
              (success_response RefLib.lib Demo.cfg
                 "https://uploads.s3.amazonaws.com/2024/03/09/00000000-0000-4000-8000-000000000001-photo.png?X-Amz-Expires=300"
                 "2024/03/09/00000000-0000-4000-8000-000000000001-photo.png")
              (success_response RefLib.lib Demo.cfg
                 "https://uploads.s3.amazonaws.com/2024/03/09/00000000-0000-4000-8000-000000000002-photo.png?X-Amz-Expires=300"
                 "2024/03/09/00000000-0000-4000-8000-000000000002-photo.png"))
    as (f & u1 & u2 & H); try (vm_compute; reflexivity).
  - vm_compute; discriminate.
  - cbv zeta in H. apply H.
Defined.

Section Validation.

Variable L : PyLib.
Variable cfg : Config.

Lemma py_in_strs_In (s : string) (allowed : list string) :
  In s allowed -> py_in_strs (PStr s) allowed = true.
Proof.
  intros H. unfold py_in_strs. apply existsb_exists.
  exists s. split; [exact H | apply String.eqb_refl].
Qed.

Lemma truthy_PStr (s : string) : s <> EmptyString -> truthy (PStr s) = true.
Proof. intros H. simpl. now apply negb_true_iff, String.eqb_neq. Qed.

Lemma dict_get_default_Some (d : list (string * pyval)) (k : string)
      (v default : pyval) :
  dict_get d k = Some v -> dict_get_default d k default = v.
Proof. unfold dict_get_default. now intros ->. Qed.

Lemma dict_get_default_None (d : list (string * pyval)) (k : string)
      (default : pyval) :
  dict_get d k = None -> dict_get_default d k default = default.
Proof. unfold dict_get_default. now intros ->. Qed.

(** A request that passes the checks of lines 40 and 44 reaches the size
    comparison. *)
Lemma lambda_handler_checked (W : World) (event : pyval)
      (d : list (string * pyval)) :
  extract_body L event = Ok (PDict d) ->
  has_required_fields d = true ->
  has_allowed_type cfg d = true ->
  lambda_handler L cfg W event
  = match
      bind (py_gt_int (declared_size d) (MAX_FILE_SIZE cfg)) (fun too_large =>
        if (too_large : bool) then
          bind (size_exceeded_message L cfg) (fun message =>
            Ok (error_response L 400 message))
        else
          bind (sanitize_filename_dyn (dict_get_default d "filename" PNone))
            (fun safe_filename =>
               bind (presign cfg W (file_key W safe_filename)
                             (dict_get_default d "contentType" PNone))
                 (fun presigned_url =>
                    Ok (success_response L cfg presigned_url
                          (file_key W safe_filename)))))
    with
    | Ok r => Ok r
    | Raise e =>
        if is_ClientError e
        then Ok (error_response L 500 "Failed to generate upload URL")
        else Ok (error_response L 500 "Internal server error")
    end.
Proof.
  intros Hb Hf Ht.
  rewrite lambda_handler_catches, (try_block_dict L cfg W _ _ Hb), Hf, Ht.
  reflexivity.
Qed.

End Validation.

(** C4: a request with a non-empty file name, an allowed content type and a
    declared size that is not above the maximum, for which the signer
    returns a URL, is answered with status 200; the key is today's date
    partition, a slash, the identifier of the call, a dash and the sanitized
    file name; the body is the JSON object of the URL, the key, the
    configured expiry and the confirmation message. *)
Theorem C4_valid_request_is_granted
  (L : PyLib) (cfg : Config) (W : World) (event : pyval)
  (d : list (string * pyval)) (filename content_type url : string) :
  extract_body L event = Ok (PDict d) ->
  dict_get d "filename" = Some (PStr filename) -> filename <> EmptyString ->
  dict_get d "contentType" = Some (PStr content_type) ->
  content_type <> EmptyString ->
  In content_type (ALLOWED_FILE_TYPES cfg) ->
  py_gt_int (declared_size d) (MAX_FILE_SIZE cfg) = Ok false ->
  presign cfg W (file_key W (sanitize_filename filename)) (PStr content_type)
  = Ok url ->
  exists r key,
    lambda_handler L cfg W event = Ok r
    /\ statusCode r = 200
    /\ headers r = response_headers
    /\ key = strftime_Ymd (utcnow W) ++ "/" ++ uuid4 (urandom W) ++ "-"
             ++ sanitize_filename filename
    /\ body r = json_dumps L
                  (PDict [ ("uploadUrl", PStr url);
                           ("fileKey", PStr key);
                           ("expiresIn", PInt (PRESIGNED_URL_EXPIRY cfg));
                           ("message", PStr "Upload URL generated successfully") ]).
Proof.
  intros Hb Hf Hfn Hc Hcn Hin Hsz Hurl.
  pose proof (dict_get_default_Some d "filename" _ PNone Hf) as Ef.
  pose proof (dict_get_default_Some d "contentType" _ PNone Hc) as Ec.
  exists (success_response L cfg url (file_key W (sanitize_filename filename))),
         (file_key W (sanitize_filename filename)).
  split; [|repeat split].
  rewrite (lambda_handler_checked L cfg W event d Hb).
  - rewrite Hsz, Ef, Ec. cbn [bind sanitize_filename_dyn]. now rewrite Hurl.
  - unfold has_required_fields. now rewrite Ef, Ec, !truthy_PStr.
  - unfold has_allowed_type. rewrite Ec. now apply py_in_strs_In.
Qed.

Lemma C4_valid_request_is_granted_witness :
  exists r key,
    lambda_handler RefLib.lib Demo.cfg (Demo.world 7)
      (Demo.api_gateway_event Demo.traversal) = Ok r
    /\ statusCode r = 200
    /\ headers r = response_headers
    /\ key = "2024/03/09/00000000-0000-4000-8000-000000000007-passwd"
    /\ body r
       = json_dumps RefLib.lib
           (PDict [ ("uploadUrl",
                     PStr "https://uploads.s3.amazonaws.com/2024/03/09/00000000-0000-4000-8000-000000000007-passwd?X-Amz-Expires=300");
                    ("fileKey", PStr key);
                    ("expiresIn", PInt 300);
                    ("message", PStr "Upload URL generated successfully") ]).
Proof.
  apply (C4_valid_request_is_granted RefLib.lib Demo.cfg (Demo.world 7) _
           Demo.traversal "../../etc/passwd" "image/png").
  - vm_compute; reflexivity.
  - reflexivity.
  - discriminate.
  - reflexivity.
  - discriminate.
  - simpl; auto.
  - vm_compute; reflexivity.
  - vm_compute; reflexivity.
Defined.

Section Messages.

Variable L : PyLib.
Variable cfg : Config.

(** The three 400 messages start differently, so their envelopes differ. *)
Lemma size_message_distinct (message : string) :
  size_exceeded_message L cfg = Ok message ->
  error_response L 400 missing_fields_message <> error_response L 400 message
  /\ forall content_type,
       error_response L 400 (type_not_allowed_message L content_type)
       <> error_response L 400 message.
Proof.
  unfold size_exceeded_message.
  destruct (PyNum.int_truediv _ _) as [mb|]; cbn [bind]; [|discriminate].
  intros [= <-]. split; [|intros content_type];
    intros H; apply (f_equal body) in H; cbn in H; discriminate H.
Qed.

Lemma size_message_text (message : string) :
  size_exceeded_message L cfg = Ok message ->
  exists mb,
    PyNum.int_truediv (MAX_FILE_SIZE cfg) (1024 * 1024) = Ok mb
    /\ message = "File size exceeds maximum of " ++ float_repr L mb ++ "MB".
Proof.
  unfold size_exceeded_message.
  destruct (PyNum.int_truediv _ _) as [mb|]; cbn [bind]; [|discriminate].
  intros [= <-]. exists mb. auto.
Qed.

End Messages.

(** C5: the checks run in a fixed order and the first failing one answers.
    A request without a truthy [filename] and [contentType] (absent, or
    empty) gets the missing-fields 400 whatever its type and size are; one
    with both fields and a content type outside the allow-list gets the
    type 400 whatever its size is, even a size that could not be compared;
    the size 400 is given only after both of these checks have passed. *)
Theorem C5_validation_order
  (L : PyLib) (cfg : Config) (W : World) (event : pyval)
  (d : list (string * pyval)) :
  extract_body L event = Ok (PDict d) ->
  (dict_get d "filename" = None \/ dict_get d "filename" = Some (PStr EmptyString)
   \/ dict_get d "contentType" = None
   \/ dict_get d "contentType" = Some (PStr EmptyString) ->
   has_required_fields d = false)
  /\ (has_required_fields d = false ->
      lambda_handler L cfg W event
      = Ok (error_response L 400 "Missing required fields: filename and contentType"))
  /\ (has_required_fields d = true -> has_allowed_type cfg d = false ->
      lambda_handler L cfg W event
      = Ok (error_response L 400
              ("File type " ++ py_str L (dict_get_default d "contentType" PNone)
               ++ " is not allowed")))
  /\ (forall message,
        has_required_fields d = true -> has_allowed_type cfg d = true ->
        py_gt_int (declared_size d) (MAX_FILE_SIZE cfg) = Ok true ->
        size_exceeded_message L cfg = Ok message ->
        lambda_handler L cfg W event = Ok (error_response L 400 message)).
Proof.
  intros Hb. repeat split.
  - unfold has_required_fields, dict_get_default.
    intros [H|[H|[H|H]]]; rewrite H; simpl;
      auto using andb_false_r.
  - intros Hf.
    now rewrite lambda_handler_catches, (try_block_dict L cfg W _ _ Hb), Hf.
  - intros Hf Ht.
    now rewrite lambda_handler_catches, (try_block_dict L cfg W _ _ Hb), Hf, Ht.
  - intros message Hf Ht Hs Hm.
    rewrite (lambda_handler_checked L cfg W event d Hb Hf Ht), Hs.
    cbn [bind]. now rewrite Hm.
Qed.

Lemma C5_validation_order_witness :
  lambda_handler RefLib.lib Demo.cfg (Demo.world 7)
    (PDict [("contentType", PStr "text/html"); ("fileSize", PInt 999999999)])
  = Ok (error_response RefLib.lib 400
          "Missing required fields: filename and contentType")
  /\ lambda_handler RefLib.lib Demo.cfg (Demo.world 7)
       (PDict (Demo.request "page.html" "text/html" [("fileSize", PStr "huge")]))
     = Ok (error_response RefLib.lib 400 "File type text/html is not allowed")
  /\ lambda_handler RefLib.lib Demo.cfg (Demo.world 7)
       (PDict (Demo.request "photo.png" "image/png" [("fileSize", PInt 999999999)]))
     = Ok (error_response RefLib.lib 400 "File size exceeds maximum of 10.0MB").
Proof.
  split; [|split].
  - destruct (C5_validation_order RefLib.lib Demo.cfg (Demo.world 7)
                (PDict [("contentType", PStr "text/html");
                        ("fileSize", PInt 999999999)])
                [("contentType", PStr "text/html"); ("fileSize", PInt 999999999)]
                eq_refl) as (_ & H & _).
    apply H. reflexivity.
  - destruct (C5_validation_order RefLib.lib Demo.cfg (Demo.world 7)
                (PDict (Demo.request "page.html" "text/html"
                          [("fileSize", PStr "huge")]))
                (Demo.request "page.html" "text/html" [("fileSize", PStr "huge")])
                eq_refl) as (_ & _ & H & _).
    apply H; reflexivity.
  - destruct (C5_validation_order RefLib.lib Demo.cfg (Demo.world 7)
                (PDict (Demo.request "photo.png" "image/png"
                          [("fileSize", PInt 999999999)]))
                (Demo.request "photo.png" "image/png" [("fileSize", PInt 999999999)])
                eq_refl) as (_ & _ & _ & H).
    apply H; vm_compute; reflexivity.
Defined.

(** C7: the handler answers with the size 400, whose message gives the
    configured limit in megabytes, exactly when the request has passed the
    field and type checks and its declared size is above [MAX_FILE_SIZE];
    for an integer size this is [MAX_FILE_SIZE < size].  A request without
    [fileSize] has the declared size 0, and with a limit that is not
    negative it is never answered with the size 400. *)
Theorem C7_size_exceeded_iff
  (L : PyLib) (cfg : Config) (W : World) (event : pyval)
  (d : list (string * pyval)) (message : string) :
  extract_body L event = Ok (PDict d) ->
  size_exceeded_message L cfg = Ok message ->
  (lambda_handler L cfg W event = Ok (error_response L 400 message)
   <-> has_required_fields d = true
       /\ has_allowed_type cfg d = true
       /\ py_gt_int (declared_size d) (MAX_FILE_SIZE cfg) = Ok true)
  /\ (forall size,
        declared_size d = PInt size ->
        (py_gt_int (declared_size d) (MAX_FILE_SIZE cfg) = Ok true
         <-> MAX_FILE_SIZE cfg < size))
  /\ (dict_get d "fileSize" = None -> declared_size d = PInt 0)
  /\ (dict_get d "fileSize" = None -> 0 <= MAX_FILE_SIZE cfg ->
      lambda_handler L cfg W event <> Ok (error_response L 400 message))
  /\ (exists mb,
        PyNum.int_truediv (MAX_FILE_SIZE cfg) (1024 * 1024) = Ok mb
        /\ message = "File size exceeds maximum of " ++ float_repr L mb ++ "MB").
Proof.
  intros Hb Hm.
  destruct (size_message_distinct L cfg message Hm) as [Dmiss Dtype].
  assert (Hiff :
    lambda_handler L cfg W event = Ok (error_response L 400 message)
    <-> has_required_fields d = true
        /\ has_allowed_type cfg d = true
        /\ py_gt_int (declared_size d) (MAX_FILE_SIZE cfg) = Ok true).
  { split.
    - rewrite lambda_handler_catches, (try_block_dict L cfg W _ _ Hb).
      destruct (has_required_fields d); cbn [negb];
        [|intros H; destruct Dmiss; congruence].
      destruct (has_allowed_type cfg d); cbn [negb];
        [|intros H; destruct (Dtype (dict_get_default d "contentType" PNone));
          congruence].
      destruct (py_gt_int _ _) as [[|]|e]; cbn [bind]; [auto| |].
      + destruct (sanitize_filename_dyn _) as [safe|e]; cbn [bind].
        * destruct (presign _ _ _ _) as [url|e]; cbn [bind];
            [|destruct (is_ClientError e)];
            intros H; apply (f_equal status_of) in H; discriminate H.
        * destruct (is_ClientError e);
            intros H; apply (f_equal status_of) in H; discriminate H.
      + destruct (is_ClientError e);
          intros H; apply (f_equal status_of) in H; discriminate H.
    - intros (Hf & Ht & Hs).
      rewrite (lambda_handler_checked L cfg W event d Hb Hf Ht), Hs.
      cbn [bind]. now rewrite Hm. }
  split; [exact Hiff|]. split; [|split; [|split]].
  - intros size ->. cbn [py_gt_int]. split.
    + intros [= H]. apply Z.gtb_lt in H. exact H.
    + intros H. f_equal. now apply Z.gtb_lt.
  - intros H. unfold declared_size. now apply dict_get_default_None.
  - intros Hn Hmax Hr. apply Hiff in Hr as (_ & _ & Hs).
    unfold declared_size in Hs.
    rewrite (dict_get_default_None d "fileSize" (PInt 0) Hn) in Hs.
    cbn [py_gt_int] in Hs. injection Hs as Hs. apply Z.gtb_lt in Hs. lia.
  - now apply size_message_text.
Qed.

Lemma C7_size_exceeded_iff_witness :
  (lambda_handler RefLib.lib Demo.cfg (Demo.world 7)
     (PDict (Demo.request "photo.png" "image/png" [("fileSize", PInt 10485761)]))
   = Ok (error_response RefLib.lib 400 "File size exceeds maximum of 10.0MB"))
  /\ lambda_handler RefLib.lib Demo.cfg (Demo.world 7)
       (PDict (Demo.request "photo.png" "image/png" []))
     <> Ok (error_response RefLib.lib 400 "File size exceeds maximum of 10.0MB").
Proof.
  assert (Hm : size_exceeded_message RefLib.lib Demo.cfg
               = Ok "File size exceeds maximum of 10.0MB")
    by (vm_compute; reflexivity).
  split.
  - pose proof (C7_size_exceeded_iff RefLib.lib Demo.cfg (Demo.world 7)
                  (PDict (Demo.request "photo.png" "image/png"
                            [("fileSize", PInt 10485761)]))
                  (Demo.request "photo.png" "image/png"
                     [("fileSize", PInt 10485761)])
                  "File size exceeds maximum of 10.0MB" eq_refl Hm)
      as ([_ H] & _).
    apply H. repeat split; vm_compute; reflexivity.
  - pose proof (C7_size_exceeded_iff RefLib.lib Demo.cfg (Demo.world 7)
                  (PDict (Demo.request "photo.png" "image/png" []))
                  (Demo.request "photo.png" "image/png" [])
                  "File size exceeds maximum of 10.0MB" eq_refl Hm)
      as (_ & _ & _ & H & _).
    apply H; [reflexivity | vm_compute; discriminate].
Defined.

(** C9, as the code has it: when the signer raises, the answer is a 500
    whose message is one of two constants chosen by the class of the
    exception alone: "Failed to generate upload URL" for a [ClientError],
    "Internal server error" for any other exception.  The text of the
    exception is in neither. *)
Theorem C9_signer_failure_is_generic_500
  (L : PyLib) (cfg : Config) (W : World) (event : pyval)
  (d : list (string * pyval)) (filename content_type : string) (e : exn) :
  extract_body L event = Ok (PDict d) ->
  dict_get d "filename" = Some (PStr filename) -> filename <> EmptyString ->
  dict_get d "contentType" = Some (PStr content_type) ->
  content_type <> EmptyString ->
  In content_type (ALLOWED_FILE_TYPES cfg) ->
  py_gt_int (declared_size d) (MAX_FILE_SIZE cfg) = Ok false ->
  presign cfg W (file_key W (sanitize_filename filename)) (PStr content_type)
  = Raise e ->
  lambda_handler L cfg W event
  = Ok (error_response L 500
          (if is_ClientError e then "Failed to generate upload URL"
           else "Internal server error"))
  /\ (forall text, e = ClientError text ->
        lambda_handler L cfg W event
        = Ok (error_response L 500 "Failed to generate upload URL")).
Proof.
  intros Hb Hf Hfn Hc Hcn Hin Hsz Hraise.
  pose proof (dict_get_default_Some d "filename" _ PNone Hf) as Ef.
  pose proof (dict_get_default_Some d "contentType" _ PNone Hc) as Ec.
  assert (H : lambda_handler L cfg W event
              = Ok (error_response L 500
                      (if is_ClientError e then "Failed to generate upload URL"
                       else "Internal server error"))).
  { rewrite (lambda_handler_checked L cfg W event d Hb).
    - rewrite Hsz, Ef, Ec. cbn [bind sanitize_filename_dyn]. rewrite Hraise.
      cbn [bind]. now destruct (is_ClientError e).
    - unfold has_required_fields. now rewrite Ef, Ec, !truthy_PStr.
    - unfold has_allowed_type. rewrite Ec. now apply py_in_strs_In. }
  split; [exact H|]. intros text ->. exact H.
Qed.

Lemma C9_signer_failure_is_generic_500_witness :
  lambda_handler RefLib.lib Demo.cfg (Demo.world_with Demo.signer_client_error)
    (PDict Demo.photo)
  = Ok (error_response RefLib.lib 500 "Failed to generate upload URL").
Proof.
  apply (C9_signer_failure_is_generic_500 RefLib.lib Demo.cfg
           (Demo.world_with Demo.signer_client_error) (PDict Demo.photo)
           Demo.photo "photo.png" "image/png"
           (ClientError "An error occurred (AccessDenied) when calling the PutObject operation")).
  - reflexivity.
  - reflexivity.
  - discriminate.
  - reflexivity.
  - discriminate.
  - simpl; auto.
  - vm_compute; reflexivity.
  - vm_compute; reflexivity.
Defined.

(** C9 as stated fails: a signer exception that is not a [ClientError] is
    answered with the other message. *)
Lemma C9_other_signer_error_other_message :
  presign Demo.cfg (Demo.world_with Demo.signer_no_credentials)
    (file_key (Demo.world_with Demo.signer_no_credentials)
       (sanitize_filename "photo.png"))
    (PStr "image/png")
  = Raise (OtherException "Unable to locate credentials")
  /\ lambda_handler RefLib.lib Demo.cfg
       (Demo.world_with Demo.signer_no_credentials) (PDict Demo.photo)
     = Ok (error_response RefLib.lib 500 "Internal server error")
  /\ lambda_handler RefLib.lib Demo.cfg
       (Demo.world_with Demo.signer_no_credentials) (PDict Demo.photo)
     <> Ok (error_response RefLib.lib 500 "Failed to generate upload URL").
Proof.
  split; [reflexivity|]. split; vm_compute; [reflexivity | discriminate].
Qed.

(** C10, as the code has it: a request that has passed the field and type
    checks and whose [fileSize] is present but is neither a number nor a
    boolean ([null], a string, a list, an object) makes the comparison
    raise [TypeError], and the answer is the 500 "Internal server error". *)
Theorem C10_ill_typed_size_is_500
  (L : PyLib) (cfg : Config) (W : World) (event : pyval)
  (d : list (string * pyval)) (v : pyval) :
  extract_body L event = Ok (PDict d) ->
  has_required_fields d = true ->
  has_allowed_type cfg d = true ->
  dict_get d "fileSize" = Some v ->
  is_int_or_float v = false ->
  py_gt_int v (MAX_FILE_SIZE cfg) = Raise TypeError
  /\ lambda_handler L cfg W event
     = Ok (error_response L 500 "Internal server error")
  /\ status_of (lambda_handler L cfg W event) = Some 500.
Proof.
  intros Hb Hf Ht Hv Hn.
  assert (Hr : py_gt_int v (MAX_FILE_SIZE cfg) = Raise TypeError)
    by (destruct v; try discriminate Hn; reflexivity).
  assert (H : lambda_handler L cfg W event
              = Ok (error_response L 500 "Internal server error")).
  { rewrite (lambda_handler_checked L cfg W event d Hb Hf Ht).
    unfold declared_size.
    rewrite (dict_get_default_Some d "fileSize" v (PInt 0) Hv), Hr.
    reflexivity. }
  split; [exact Hr|]. split; [exact H | now rewrite H].
Qed.

Lemma C10_ill_typed_size_is_500_witness :
  lambda_handler RefLib.lib Demo.cfg (Demo.world 7)
    (PDict (Demo.request "photo.png" "image/png" [("fileSize", PStr "2048")]))
  = Ok (error_response RefLib.lib 500 "Internal server error").
Proof.
  apply (C10_ill_typed_size_is_500 RefLib.lib Demo.cfg (Demo.world 7) _
           (Demo.request "photo.png" "image/png" [("fileSize", PStr "2048")])
           (PStr "2048")); reflexivity.
Defined.

(** C10 as stated fails for a boolean: [true] is not a JSON number, yet
    Python compares it as the integer 1 and the request is granted. *)
Lemma C10_boolean_size_is_compared :
  dict_get (Demo.request "photo.png" "image/png" [("fileSize", PBool true)])
    "fileSize" = Some (PBool true)
  /\ is_json_number (PBool true) = false
  /\ py_gt_int (PBool true) (MAX_FILE_SIZE Demo.cfg) = Ok false
  /\ status_of (lambda_handler RefLib.lib Demo.cfg (Demo.world 7)
                  (PDict (Demo.request "photo.png" "image/png"
                            [("fileSize", PBool true)]))) = Some 200
  /\ status_of (lambda_handler RefLib.lib Demo.cfg (Demo.world 7)
                  (PDict (Demo.request "photo.png" "image/png"
                            [("fileSize", PBool true)]))) <> Some 500.
Proof.
  repeat split; vm_compute; try reflexivity; discriminate.
Qed.

(** * Further properties of the code *)

(** ** More on strings and paths *)

Section PathFacts.

Lemma append_nil_r (s : string) : s ++ EmptyString = s.
Proof. induction s as [|c s IH]; simpl; [reflexivity | now rewrite IH]. Qed.

Lemma take_drop (n : nat) (s : string) : PyStr.take n s ++ PyStr.drop n s = s.
Proof.
  revert s; induction n as [|n IH]; intros [|c s]; simpl; try reflexivity.
  now rewrite IH.
Qed.

Lemma length_drop (n : nat) (s : string) :
  String.length (PyStr.drop n s) = (String.length s - n)%nat.
Proof. revert s; induction n as [|n IH]; intros [|c s]; simpl; auto. Qed.

Lemma drop_append (a b : string) (k : nat) :
  PyStr.drop (String.length a + k) (a ++ b) = PyStr.drop k b.
Proof. induction a as [|c a IH]; simpl; [reflexivity | exact IH]. Qed.

Lemma rfind_bounds (c : ascii) (s : string) :
  -1 <= PyStr.rfind c s < PyStr.len s.
Proof.
  unfold PyStr.len. induction s as [|a s IH]; simpl PyStr.rfind; simpl String.length.
  - lia.
  - destruct (Z.leb_spec 0 (PyStr.rfind c s)); [lia|].
    destruct (Ascii.eqb a c); lia.
Qed.

Lemma rfind_absent (c : ascii) (s : string) :
  PyStr.mem c s = false -> PyStr.rfind c s = -1.
Proof.
  induction s as [|a s IH]; simpl; [reflexivity|].
  intros H. apply orb_false_iff in H as [Ha Hs].
  now rewrite (IH Hs), Ha.
Qed.

Lemma rfind_append (c : ascii) (a b : string) :
  0 <= PyStr.rfind c b ->
  PyStr.rfind c (a ++ b) = PyStr.len a + PyStr.rfind c b.
Proof.
  intros Hb. unfold PyStr.len.
  induction a as [|x a IH]; simpl PyStr.rfind; simpl String.length;
    [simpl; lia|].
  change (PyStr.rfind c (String x a ++ b))
    with (let i := PyStr.rfind c (a ++ b) in
          if 0 <=? i then i + 1 else if Ascii.eqb x c then 0 else -1).
  cbv zeta. rewrite IH.
  destruct (Z.leb_spec 0 (Z.of_nat (String.length a) + PyStr.rfind c b)); lia.
Qed.

Lemma clamp_inside (k : Z) (s : string) :
  0 <= k <= PyStr.len s -> PyStr.clamp k s = Z.to_nat k.
Proof.
  intros H. unfold PyStr.clamp.
  destruct (Z.ltb_spec k 0); [lia|]. f_equal. lia.
Qed.

(** A path without a slash is its own base name. *)
Lemma basename_no_sep (p : string) :
  PyStr.mem "/" p = false -> PosixPath.basename p = p.
Proof.
  intros H. unfold PosixPath.basename, PosixPath.sep, PyStr.slice_from.
  rewrite (rfind_absent _ _ H), clamp_inside; [reflexivity|].
  unfold PyStr.len; lia.
Qed.

(** Everything up to and including a slash is dropped. *)
Lemma basename_strips_directory (dir name : string) :
  PosixPath.basename (dir ++ String "/" name) = PosixPath.basename name.
Proof.
  unfold PosixPath.basename, PosixPath.sep, PyStr.slice_from.
  pose proof (rfind_bounds "/" name) as Bn.
  pose proof (rfind_bounds "/" (String "/" name)) as Bt.
  assert (Ht : PyStr.rfind "/" (String "/" name) = PyStr.rfind "/" name + 1).
  { simpl PyStr.rfind.
    destruct (Z.leb_spec 0 (PyStr.rfind "/" name)); [reflexivity | lia]. }
  assert (Hlen : PyStr.len (dir ++ String "/" name)
                 = PyStr.len dir + 1 + PyStr.len name).
  { unfold PyStr.len. rewrite length_append. simpl String.length. lia. }
  assert (Hd : 0 <= PyStr.len dir) by (unfold PyStr.len; lia).
  assert (Hn : PyStr.len (String "/" name) = PyStr.len name + 1)
    by (unfold PyStr.len; simpl String.length; lia).
  rewrite rfind_append by lia.
  rewrite (clamp_inside _ (dir ++ String "/" name)) by lia.
  rewrite (clamp_inside _ name) by lia.
  rewrite Ht.
  replace (Z.to_nat (PyStr.len dir + (PyStr.rfind "/" name + 1) + 1))
    with (String.length dir + S (Z.to_nat (PyStr.rfind "/" name + 1)))%nat
    by (unfold PyStr.len; lia).
  rewrite drop_append. reflexivity.
Qed.

Lemma replace_absent (old new : ascii) (s : string) :
  PyStr.mem old s = false -> PyStr.replace old new s = s.
Proof.
  induction s as [|a s IH]; simpl; [reflexivity|].
  intros H. apply orb_false_iff in H as [Ha Hs].
  now rewrite Ha, (IH Hs).
Qed.

Lemma replace_loop_absent (chars : list ascii) (s : string) :
  existsb (fun char => PyStr.mem char s) chars = false ->
  fold_left (fun fn char => PyStr.replace char "_"%char fn) chars s = s.
Proof.
  induction chars as [|c chars IH]; simpl; [reflexivity|].
  intros H. apply orb_false_iff in H as [Hc Hr].
  now rewrite (replace_absent _ _ _ Hc), (IH Hr).
Qed.

Lemma splitext_join (p : string) :
  fst (PosixPath.splitext p) ++ snd (PosixPath.splitext p) = p.
Proof.
  unfold PosixPath.splitext.
  destruct (_ && _); cbn [fst snd].
  - unfold PyStr.slice_to, PyStr.slice_from. apply take_drop.
  - unfold PyStr.slice_to.
    rewrite clamp_inside by (unfold PyStr.len; lia).
    simpl. apply append_nil_r.
Qed.

(** A character that is neither the underscore nor in the input is not in
    the output; nor is any dangerous character. *)
Lemma sanitize_filename_absent (c : ascii) (filename : string) :
  In c dangerous_chars \/ (c <> "_"%char /\ PyStr.mem c filename = false) ->
  PyStr.mem c (sanitize_filename filename) = false.
Proof.
  intros [Hin|[Hne Hm]]; [now apply sanitize_filename_clean|].
  unfold sanitize_filename.
  assert (Hc : PyStr.mem c (replace_dangerous (PosixPath.basename filename)) = false).
  { apply replace_loop_removes.
    - unfold dangerous_chars; simpl.
      intros H; repeat (destruct H as [H|H]; [discriminate H|]); exact H.
    - right; split; [exact Hne|].
      unfold PosixPath.basename, PyStr.slice_from. now apply mem_drop. }
  destruct (_ >? _); [|exact Hc].
  destruct (splitext_parts c _ Hc) as [Hn He].
  destruct (PosixPath.splitext _) as [name ext]; cbn [fst snd] in *.
  rewrite mem_append, He, orb_false_r.
  now apply mem_take.
Qed.

Lemma has_dangerous_char_false (s : string) (c : ascii) :
  has_dangerous_char s = false -> In c dangerous_chars -> PyStr.mem c s = false.
Proof.
  unfold has_dangerous_char. intros H Hin.
  destruct (PyStr.mem c s) eqn:E; [|reflexivity].
  assert (existsb (fun char => PyStr.mem char s) dangerous_chars = true)
    by (apply existsb_exists; eauto).
  congruence.
Qed.

(** A name without dangerous characters and within the limit is left as it
    is. *)
Lemma sanitize_filename_fixed (s : string) :
  has_dangerous_char s = false -> PyStr.len s <= max_length ->
  sanitize_filename s = s.
Proof.
  intros Hd Hl. unfold sanitize_filename.
  rewrite basename_no_sep
    by (apply (has_dangerous_char_false s); [exact Hd | simpl; auto 10]).
  unfold replace_dangerous. rewrite (replace_loop_absent _ _ Hd).
  destruct (Z.gtb_spec (PyStr.len s) max_length); [lia | reflexivity].
Qed.

End PathFacts.

(** ** More on [sanitize_filename] *)

Section SanitizeMore.

Lemma length_replace (old new : ascii) (s : string) :
  String.length (PyStr.replace old new s) = String.length s.
Proof. induction s as [|a s IH]; simpl; [reflexivity | now rewrite IH]. Qed.

Lemma length_replace_dangerous (s : string) :
  String.length (replace_dangerous s) = String.length s.
Proof.
  unfold replace_dangerous. generalize dangerous_chars as chars.
  intros chars; revert s; induction chars as [|c chars IH]; intros s; simpl;
    [reflexivity|].
  now rewrite IH, length_replace.
Qed.

Lemma length_basename (p : string) :
  (String.length (PosixPath.basename p) <= String.length p)%nat.
Proof.
  unfold PosixPath.basename, PyStr.slice_from. rewrite length_drop. lia.
Qed.

Lemma length_splitext (p : string) :
  PyStr.len (fst (PosixPath.splitext p)) + PyStr.len (snd (PosixPath.splitext p))
  = PyStr.len p.
Proof.
  unfold PyStr.len. rewrite <- (splitext_join p) at 3.
  rewrite length_append. lia.
Qed.

Lemma skip_leading_dots_lt (fuel : nat) (p : string) (i j : Z) :
  PosixPath.skip_leading_dots fuel p i j = true -> i < j.
Proof.
  destruct fuel as [|fuel]; simpl; [discriminate|].
  destruct (Z.ltb_spec i j); [auto | discriminate].
Qed.

(** The stem that [splitext] returns for a non-empty path is not empty. *)
Lemma splitext_stem_nonempty (p : string) :
  0 < PyStr.len p -> 0 < PyStr.len (fst (PosixPath.splitext p)).
Proof.
  intros Hp. unfold PosixPath.splitext.
  destruct (_ && _) eqn:E; cbn [fst]; [|exact Hp].
  apply andb_true_iff in E as [_ E]. apply skip_leading_dots_lt in E.
  pose proof (rfind_bounds PosixPath.sep p) as Bs.
  pose proof (rfind_bounds PosixPath.extsep p) as Bd.
  unfold PyStr.slice_to. rewrite clamp_inside by lia.
  unfold PyStr.len in *. rewrite length_take. lia.
Qed.

(** The length of the result, when the name is cut. *)
Lemma length_truncated (name ext : string) :
  PyStr.len (PyStr.slice_to (max_length - PyStr.len ext) name ++ ext)
  = Z.min (PyStr.len name)
          (if max_length - PyStr.len ext <? 0
           then Z.max 0 (max_length - PyStr.len ext + PyStr.len name)
           else max_length - PyStr.len ext)
    + PyStr.len ext.
Proof.
  unfold PyStr.len, PyStr.slice_to, PyStr.clamp, PyStr.len, max_length.
  rewrite length_append, length_take.
  destruct (Z.ltb_spec (200 - Z.of_nat (String.length ext)) 0); lia.
Qed.

Lemma sanitize_filename_unfold (filename : string) :
  let cleaned := replace_dangerous (PosixPath.basename filename) in
  sanitize_filename filename
  = if PyStr.len cleaned >? max_length
    then PyStr.slice_to
           (max_length - PyStr.len (snd (PosixPath.splitext cleaned)))
           (fst (PosixPath.splitext cleaned))
         ++ snd (PosixPath.splitext cleaned)
    else cleaned.
Proof.
  cbv zeta. unfold sanitize_filename.
  destruct (_ >? _); [|reflexivity].
  now destruct (PosixPath.splitext _).
Qed.

Lemma sanitize_filename_safe (filename : string) :
  has_dangerous_char (sanitize_filename filename) = false.
Proof.
  unfold has_dangerous_char.
  destruct (existsb _ _) eqn:E; [|reflexivity].
  apply existsb_exists in E as (c & Hin & Hc).
  now rewrite (sanitize_filename_clean c filename Hin) in Hc.
Qed.

(** A name that comes back unchanged is within the limit. *)
Lemma sanitize_filename_fixed_short (s : string) :
  sanitize_filename s = s -> PyStr.len s <= max_length.
Proof.
  intros Hfix.
  assert (Hd : has_dangerous_char s = false)
    by (rewrite <- Hfix; apply sanitize_filename_safe).
  destruct (Z.le_gt_cases (PyStr.len s) max_length) as [|Hgt]; [assumption|].
  exfalso. revert Hfix. rewrite sanitize_filename_unfold. cbv zeta.
  rewrite basename_no_sep
    by (apply (has_dangerous_char_false s); [exact Hd | simpl; auto 10]).
  unfold replace_dangerous. rewrite (replace_loop_absent _ _ Hd).
  destruct (Z.gtb_spec (PyStr.len s) max_length); [|lia].
  intros Hfix. apply (f_equal PyStr.len) in Hfix.
  rewrite length_truncated in Hfix.
  pose proof (length_splitext s) as Hsum.
  pose proof (splitext_stem_nonempty s) as Hstem.
  assert (0 <= PyStr.len (snd (PosixPath.splitext s))) by (unfold PyStr.len; lia).
  unfold max_length in *.
  destruct (Z.ltb_spec (200 - PyStr.len (snd (PosixPath.splitext s))) 0); lia.
Qed.

End SanitizeMore.

(** X1: the names that [sanitize_filename] returns unchanged are exactly
    those that hold no dangerous character and are at most 200 characters
    long. *)
Theorem X1_sanitize_fixed_points (s : string) :
  sanitize_filename s = s
  <-> has_dangerous_char s = false /\ PyStr.len s <= max_length.
Proof.
  split.
  - intros H. split; [|now apply sanitize_filename_fixed_short].
    rewrite <- H. apply sanitize_filename_safe.
  - intros [Hd Hl]. now apply sanitize_filename_fixed.
Qed.

(** X2: every character of the sanitized name is an underscore or a
    character of the input, and none is dangerous: nothing else is ever
    introduced. *)
Theorem X2_sanitize_alphabet (filename : string) (c : ascii) :
  PyStr.mem c (sanitize_filename filename) = true ->
  ~ In c dangerous_chars
  /\ (c = "_"%char \/ PyStr.mem c filename = true).
Proof.
  intros H. split.
  - intros Hin. now rewrite (sanitize_filename_clean c filename Hin) in H.
  - destruct (ascii_dec c "_") as [|Hne]; [now left|]. right.
    destruct (PyStr.mem c filename) eqn:E; [reflexivity|].
    rewrite sanitize_filename_absent in H; [discriminate | now right].
Qed.

Lemma X2_sanitize_alphabet_witness :
  PyStr.mem "_" (sanitize_filename "a<b") = true
  /\ ~ In "_"%char dangerous_chars
  /\ ("_"%char = "_"%char \/ PyStr.mem "_" "a<b" = true).
Proof.
  split; [reflexivity|].
  apply (X2_sanitize_alphabet "a<b" "_"). reflexivity.
Defined.

(** X3: directory components never reach the result: whatever stands
    before a slash is ignored, and a name that ends in a slash is sanitized
    to the empty string. *)
Theorem X3_sanitize_ignores_directories (dir name : string) :
  sanitize_filename (dir ++ String "/" name) = sanitize_filename name
  /\ sanitize_filename (dir ++ "/") = EmptyString.
Proof.
  assert (H : forall n, sanitize_filename (dir ++ String "/" n) = sanitize_filename n)
    by (intros n; unfold sanitize_filename; now rewrite basename_strips_directory).
  split; [apply H|]. now rewrite (H EmptyString).
Qed.

(** X4: sanitizing never makes a name longer. *)
Theorem X4_sanitize_never_longer (filename : string) :
  PyStr.len (sanitize_filename filename) <= PyStr.len filename.
Proof.
  rewrite sanitize_filename_unfold. cbv zeta.
  set (cleaned := replace_dangerous (PosixPath.basename filename)).
  assert (Hc : PyStr.len cleaned <= PyStr.len filename).
  { unfold PyStr.len, cleaned. rewrite length_replace_dangerous.
    pose proof (length_basename filename). lia. }
  destruct (_ >? _); [|exact Hc].
  rewrite length_truncated.
  pose proof (length_splitext cleaned). lia.
Qed.

(** X5: the result is within the limit of 200 characters exactly when the
    extension that [splitext] finds in the cleaned name is. *)
Theorem X5_sanitize_limit_iff (filename : string) :
  PyStr.len (sanitize_filename filename) <= max_length
  <-> PyStr.len (snd (PosixPath.splitext
                       (replace_dangerous (PosixPath.basename filename))))
      <= max_length.
Proof.
  split; [|apply sanitize_filename_bound].
  rewrite sanitize_filename_unfold. cbv zeta.
  set (cleaned := replace_dangerous (PosixPath.basename filename)).
  pose proof (length_splitext cleaned) as Hsum.
  assert (0 <= PyStr.len (fst (PosixPath.splitext cleaned)))
    by (unfold PyStr.len; lia).
  destruct (Z.gtb_spec (PyStr.len cleaned) max_length); [|lia].
  rewrite length_truncated.
  destruct (Z.ltb_spec (max_length
                        - PyStr.len (snd (PosixPath.splitext cleaned))) 0); lia.
Qed.

(** X6: a cleaned name longer than 200 characters whose extension fits is
    cut to exactly 200 characters: the first [200 - len(ext)] characters of
    the stem, then the extension. *)
Theorem X6_sanitize_truncation (filename : string) :
  let cleaned := replace_dangerous (PosixPath.basename filename) in
  let name := fst (PosixPath.splitext cleaned) in
  let ext := snd (PosixPath.splitext cleaned) in
  max_length < PyStr.len cleaned ->
  PyStr.len ext <= max_length ->
  sanitize_filename filename
  = PyStr.take (Z.to_nat (max_length - PyStr.len ext)) name ++ ext
  /\ PyStr.len (sanitize_filename filename) = max_length.
Proof.
  intros cleaned name ext Hlong Hext.
  pose proof (length_splitext cleaned) as Hsum. fold name ext in Hsum.
  assert (Hs : sanitize_filename filename
               = PyStr.take (Z.to_nat (max_length - PyStr.len ext)) name ++ ext).
  { rewrite sanitize_filename_unfold. cbv zeta. fold cleaned name ext.
    destruct (Z.gtb_spec (PyStr.len cleaned) max_length); [|lia].
    unfold PyStr.slice_to. rewrite clamp_inside; [reflexivity|].
    unfold PyStr.len in *. lia. }
  split; [exact Hs|].
  rewrite Hs. unfold PyStr.len in *. rewrite length_append, length_take. lia.
Qed.

Lemma X6_sanitize_truncation_witness :
  sanitize_filename ("dir/" ++ PyStr.repeat "s" 500 ++ ".extension")
  = PyStr.take (Z.to_nat (max_length - PyStr.len ".extension"))
               (PyStr.repeat "s" 500) ++ ".extension"
  /\ PyStr.len (sanitize_filename ("dir/" ++ PyStr.repeat "s" 500 ++ ".extension"))
     = max_length.
Proof.
  apply (X6_sanitize_truncation ("dir/" ++ PyStr.repeat "s" 500 ++ ".extension"));
    vm_compute; [reflexivity | discriminate].
Defined.

(** X7: sanitizing twice gives the same name as sanitizing once exactly
    when the first result is within the limit. *)
Theorem X7_sanitize_idempotent_iff (filename : string) :
  sanitize_filename (sanitize_filename filename) = sanitize_filename filename
  <-> PyStr.len (sanitize_filename filename) <= max_length.
Proof.
  split.
  - apply sanitize_filename_fixed_short.
  - intros H. apply sanitize_filename_fixed; [apply sanitize_filename_safe | exact H].
Qed.

(** ** More on the handler *)

Section HandlerMore.

Variable L : PyLib.
Variable cfg : Config.

Lemma py_in_strs_inv (v : pyval) (allowed : list string) :
  py_in_strs v allowed = true -> exists s, v = PStr s /\ In s allowed.
Proof.
  unfold py_in_strs. intros H. apply existsb_exists in H as (a & Hin & Ha).
  destruct v; try discriminate Ha. simpl in Ha.
  apply String.eqb_eq in Ha as ->. eauto.
Qed.

Lemma dict_get_default_PStr (d : list (string * pyval)) (k s : string) :
  dict_get_default d k PNone = PStr s -> dict_get d k = Some (PStr s).
Proof.
  unfold dict_get_default. destruct (dict_get d k); [now intros -> | discriminate].
Qed.

(** A request whose normalised form is not a dictionary ends in the
    catch-all clause. *)
Lemma not_dict_request_is_500 (W : World) (event : pyval) :
  (forall d, extract_body L event <> Ok (PDict d)) ->
  lambda_handler L cfg W event = Ok (error_response L 500 "Internal server error").
Proof.
  intros Hnd. rewrite lambda_handler_catches.
  destruct (extract_body L event) as [body|e] eqn:Hb.
  - rewrite (try_block_not_dict L cfg W event body Hb); [reflexivity|].
    intros d ->. now apply (Hnd d).
  - unfold try_block. rewrite Hb. cbn [bind].
    now rewrite (extract_body_never_ClientError L event e Hb).
Qed.

Lemma extract_body_plain (d : list (string * pyval)) :
  dict_get d "body" = None -> extract_body L (PDict d) = Ok (PDict d).
Proof. intros H. unfold extract_body. cbn [py_contains_str bind]. now rewrite H. Qed.

Lemma extract_body_wrapped (ev : list (string * pyval)) (b : pyval) :
  dict_get ev "body" = Some b -> is_str b = false ->
  extract_body L (PDict ev) = Ok b.
Proof.
  intros H Hs. unfold extract_body. cbn [py_contains_str py_getitem_str bind].
  rewrite H. cbn [bind]. now destruct b.
Qed.

Lemma extract_body_serialised (ev : list (string * pyval)) (s : string) (v : pyval) :
  dict_get ev "body" = Some (PStr s) -> json_loads L s = Some v ->
  extract_body L (PDict ev) = Ok v.
Proof.
  intros H Hj. unfold extract_body. cbn [py_contains_str py_getitem_str bind].
  rewrite H. cbn [bind]. now rewrite Hj.
Qed.

(** The answer depends on the event only through the request that
    [extract_body] finds in it. *)
Lemma lambda_handler_same_request (W : World) (event event' : pyval) :
  extract_body L event = extract_body L event' ->
  lambda_handler L cfg W event = lambda_handler L cfg W event'.
Proof.
  intros H. rewrite !lambda_handler_catches. unfold try_block. now rewrite H.
Qed.

(** An event that is not a dictionary never yields a request. *)
Lemma extract_body_not_dict (event : pyval) (d : list (string * pyval)) :
  is_dict event = false -> extract_body L event <> Ok (PDict d).
Proof.
  unfold extract_body. destruct event; try discriminate;
    cbn [py_contains_str py_getitem_str bind]; intros _.
  - now destruct (PyStr.contains _ _).
  - now destruct (existsb _ _).
Qed.

(** The two 500 envelopes differ. *)
Lemma internal_error_distinct :
  error_response L 500 "Internal server error"
  <> error_response L 500 "Failed to generate upload URL".
Proof. intros H. apply (f_equal body) in H. cbn in H. discriminate H. Qed.

(** A [ClientError] leaving the [try] block was raised by the signer. *)
Lemma try_block_ClientError (W : World) (event : pyval) (text : string) :
  try_block L cfg W event = Raise (ClientError text) ->
  exists key content_type,
    presign cfg W key content_type = Raise (ClientError text).
Proof.
  destruct (extract_body L event) as [body|e] eqn:Hb.
  2:{ unfold try_block. rewrite Hb. cbn [bind]. intros [= ->].
      now apply extract_body_never_ClientError in Hb. }
  destruct body;
    try (rewrite (try_block_not_dict L cfg W _ _ Hb) by discriminate; discriminate).
  rewrite (try_block_dict L cfg W _ _ Hb).
  destruct (negb (has_required_fields d)); [discriminate|].
  destruct (negb (has_allowed_type cfg d)); [discriminate|].
  unfold py_gt_int, size_exceeded_message, PyNum.int_truediv, sanitize_filename_dyn.
  destruct (declared_size d); cbn [bind]; try discriminate;
    match goal with
    | |- context [if ?b then _ else _] => destruct b
    end; cbn [bind];
    try (destruct (PyNum.of_ratio _ _); discriminate);
    (destruct (dict_get_default d "filename" PNone); cbn [bind]; try discriminate;
     destruct (presign _ _ _ _) eqn:Hp; cbn [bind]; try discriminate;
     intros [= ->]; eauto).
Qed.

End HandlerMore.

(** X8: an event or a request that is not a JSON object is answered with
    the 500 "Internal server error": an event that is not a dictionary, a
    [body] that is neither a string nor a dictionary, and a [body] string
    that decodes to something else than a dictionary. *)
Theorem X8_non_object_request_is_500
  (L : PyLib) (cfg : Config) (W : World) :
  (forall event,
     is_dict event = false ->
     lambda_handler L cfg W event
     = Ok (error_response L 500 "Internal server error"))
  /\ (forall ev b,
        dict_get ev "body" = Some b -> is_str b = false -> is_dict b = false ->
        lambda_handler L cfg W (PDict ev)
        = Ok (error_response L 500 "Internal server error"))
  /\ (forall ev s v,
        dict_get ev "body" = Some (PStr s) -> json_loads L s = Some v ->
        is_dict v = false ->
        lambda_handler L cfg W (PDict ev)
        = Ok (error_response L 500 "Internal server error")).
Proof.
  repeat split.
  - intros event H. apply not_dict_request_is_500.
    intros d. now apply extract_body_not_dict.
  - intros ev b Hb Hs Hd. apply not_dict_request_is_500.
    rewrite (extract_body_wrapped L ev b Hb Hs). intros d [= ->]. discriminate Hd.
  - intros ev s v Hb Hj Hd. apply not_dict_request_is_500.
    rewrite (extract_body_serialised L ev s v Hb Hj). intros d [= ->].
    discriminate Hd.
Qed.

Lemma X8_non_object_request_is_500_witness :
  lambda_handler RefLib.lib Demo.cfg (Demo.world 7) (PList [PStr "body"])
  = Ok (error_response RefLib.lib 500 "Internal server error")
  /\ lambda_handler RefLib.lib Demo.cfg (Demo.world 7) (PDict [("body", PNone)])
     = Ok (error_response RefLib.lib 500 "Internal server error")
  /\ lambda_handler RefLib.lib Demo.cfg (Demo.world 7)
       (PDict [("body", PStr "[1, 2]")])
     = Ok (error_response RefLib.lib 500 "Internal server error").
Proof.
  pose proof (X8_non_object_request_is_500 RefLib.lib Demo.cfg (Demo.world 7))
    as (H1 & H2 & H3).
  split; [|split].
  - apply H1. reflexivity.
  - apply (H2 _ PNone); reflexivity.
  - apply (H3 _ "[1, 2]" (PList [PInt 1; PInt 2]));
      [reflexivity | vm_compute; reflexivity | reflexivity].
Defined.

(** X9: a [filename] that is truthy but not a string passes the field
    check; with an allowed type and an acceptable size the request fails in
    [sanitize_filename], and the answer is the 500 "Internal server error",
    whatever the signer would have done. *)
Theorem X9_non_string_filename_is_500
  (L : PyLib) (cfg : Config) (W : World) (event : pyval)
  (d : list (string * pyval)) :
  extract_body L event = Ok (PDict d) ->
  has_required_fields d = true ->
  has_allowed_type cfg d = true ->
  py_gt_int (declared_size d) (MAX_FILE_SIZE cfg) = Ok false ->
  is_str (dict_get_default d "filename" PNone) = false ->
  lambda_handler L cfg W event
  = Ok (error_response L 500 "Internal server error").
Proof.
  intros Hb Hf Ht Hs Hn.
  rewrite (lambda_handler_checked L cfg W event d Hb Hf Ht), Hs. cbn [bind].
  destruct (dict_get_default d "filename" PNone); try discriminate Hn; reflexivity.
Qed.

Lemma X9_non_string_filename_is_500_witness :
  lambda_handler RefLib.lib Demo.cfg (Demo.world 7)
    (PDict [("filename", PInt 123); ("contentType", PStr "image/png")])
  = Ok (error_response RefLib.lib 500 "Internal server error").
Proof.
  apply (X9_non_string_filename_is_500 RefLib.lib Demo.cfg (Demo.world 7) _
           [("filename", PInt 123); ("contentType", PStr "image/png")]);
    reflexivity.
Defined.

(** X10: a 200 is only given to a valid request: the file name is a
    non-empty string, the content type is a string of the allow-list, the
    declared size is not above the maximum, and the URL in the answer is the
    one the signer returned for [put_object] on the configured bucket, the
    key of the answer, that content type, KMS encryption with the
    configured key, and the configured expiry. *)
Theorem X10_granted_only_if_valid
  (L : PyLib) (cfg : Config) (W : World) (event : pyval) (r : response) :
  lambda_handler L cfg W event = Ok r ->
  statusCode r = 200 ->
  exists d filename content_type url,
    extract_body L event = Ok (PDict d)
    /\ dict_get d "filename" = Some (PStr filename)
    /\ filename <> EmptyString
    /\ dict_get d "contentType" = Some (PStr content_type)
    /\ In content_type (ALLOWED_FILE_TYPES cfg)
    /\ py_gt_int (declared_size d) (MAX_FILE_SIZE cfg) = Ok false
    /\ generate_presigned_url W "put_object"
         {| Bucket := UPLOAD_BUCKET cfg;
            Key := file_key W (sanitize_filename filename);
            ContentType := PStr content_type;
            ServerSideEncryption := "aws:kms";
            SSEKMSKeyId := KMS_KEY_ID cfg |}
         (PRESIGNED_URL_EXPIRY cfg) = Ok url
    /\ r = success_response L cfg url (file_key W (sanitize_filename filename)).
Proof.
  rewrite lambda_handler_catches.
  destruct (try_block L cfg W event) as [r'|e] eqn:Ht.
  2:{ destruct (is_ClientError e); intros [= <-]; discriminate. }
  intros [= ->] Hs. revert Ht.
  destruct (extract_body L event) as [body|e] eqn:Hb;
    [|unfold try_block; rewrite Hb; discriminate].
  destruct body;
    try (rewrite (try_block_not_dict L cfg W _ _ Hb) by discriminate; discriminate).
  rewrite (try_block_dict L cfg W _ _ Hb).
  destruct (has_required_fields d) eqn:Hf; cbn [negb];
    [|intros [= <-]; discriminate].
  destruct (has_allowed_type cfg d) eqn:Hty; cbn [negb];
    [|intros [= <-]; discriminate].
  destruct (py_gt_int _ _) as [[|]|] eqn:Hsz; cbn [bind]; try discriminate.
  - destruct (size_exceeded_message L cfg); cbn [bind]; try discriminate.
    intros [= <-]; discriminate.
  - destruct (py_in_strs_inv _ _ Hty) as (ct & Hct & Hin).
    destruct (dict_get_default d "filename" PNone) eqn:Hfn;
      cbn [sanitize_filename_dyn bind]; try discriminate.
    destruct (presign _ _ _ _) as [url|] eqn:Hp; cbn [bind]; try discriminate.
    intros [= <-]. exists d, s, ct, url.
    unfold has_required_fields in Hf. rewrite Hfn in Hf.
    apply andb_true_iff in Hf as [Hne _]. simpl in Hne.
    apply negb_true_iff, String.eqb_neq in Hne.
    rewrite Hct in Hp.
    repeat split; auto using dict_get_default_PStr.
Qed.

Lemma X10_granted_only_if_valid_witness :
  exists d filename content_type url,
    extract_body RefLib.lib (Demo.api_gateway_event Demo.photo) = Ok (PDict d)
    /\ dict_get d "filename" = Some (PStr filename)
    /\ filename <> EmptyString
    /\ dict_get d "contentType" = Some (PStr content_type)
    /\ In content_type (ALLOWED_FILE_TYPES Demo.cfg)
    /\ py_gt_int (declared_size d) (MAX_FILE_SIZE Demo.cfg) = Ok false
    /\ generate_presigned_url (Demo.world 7) "put_object"
         {| Bucket := UPLOAD_BUCKET Demo.cfg;
            Key := file_key (Demo.world 7) (sanitize_filename filename);
            ContentType := PStr content_type;
            ServerSideEncryption := "aws:kms";
            SSEKMSKeyId := KMS_KEY_ID Demo.cfg |}
         (PRESIGNED_URL_EXPIRY Demo.cfg) = Ok url
    /\ success_response RefLib.lib Demo.cfg
         "https://uploads.s3.amazonaws.com/2024/03/09/00000000-0000-4000-8000-000000000007-photo.png?X-Amz-Expires=300"
         "2024/03/09/00000000-0000-4000-8000-000000000007-photo.png"
       = success_response RefLib.lib Demo.cfg url
           (file_key (Demo.world 7) (sanitize_filename filename)).
Proof.
  apply (X10_granted_only_if_valid RefLib.lib Demo.cfg (Demo.world 7)
           (Demo.api_gateway_event Demo.photo)); vm_compute; reflexivity.
Defined.

(** X11: a rejection with status 400 is decided by the event and the
    configuration alone: the clock, the random bytes and the signer have no
    part in it, so any other world gives the very same answer. *)
Theorem X11_rejection_ignores_world
  (L : PyLib) (cfg : Config) (W W' : World) (event : pyval) (r : response) :
  lambda_handler L cfg W event = Ok r ->
  statusCode r = 400 ->
  lambda_handler L cfg W' event = Ok r.
Proof.
  rewrite !lambda_handler_catches.
  destruct (extract_body L event) as [body|e] eqn:Hb.
  2:{ unfold try_block. rewrite Hb. cbn [bind].
      destruct (is_ClientError e); intros [= <-]; discriminate. }
  destruct body;
    try (rewrite (try_block_not_dict L cfg W _ _ Hb) by discriminate;
         intros [= <-]; discriminate).
  rewrite !(try_block_dict L cfg _ _ _ Hb).
  destruct (negb (has_required_fields d)); [auto|].
  destruct (negb (has_allowed_type cfg d)); [auto|].
  destruct (py_gt_int _ _) as [[|]|e]; cbn [bind]; [auto| |].
  - destruct (sanitize_filename_dyn _) as [safe|e]; cbn [bind].
    + destruct (presign cfg W _ _) as [url|e]; cbn [bind];
        [|destruct (is_ClientError e)]; intros [= <-]; discriminate.
    + destruct (is_ClientError e); intros [= <-]; discriminate.
  - destruct (is_ClientError e); intros [= <-]; discriminate.
Qed.

Lemma X11_rejection_ignores_world_witness :
  lambda_handler RefLib.lib Demo.cfg (Demo.world_with Demo.signer_no_credentials)
    (PDict (Demo.request "page.html" "text/html" []))
  = Ok (error_response RefLib.lib 400 "File type text/html is not allowed").
Proof.
  apply (X11_rejection_ignores_world RefLib.lib Demo.cfg (Demo.world 7)
           (Demo.world_with Demo.signer_no_credentials));
    vm_compute; reflexivity.
Defined.

(** X12: a 500 carries one of two constant messages and nothing else; and
    "Failed to generate upload URL" is only answered when the signer was
    called and raised a [ClientError]. *)
Theorem X12_server_errors_are_generic
  (L : PyLib) (cfg : Config) (W : World) (event : pyval) (r : response) :
  lambda_handler L cfg W event = Ok r ->
  statusCode r = 500 ->
  (r = error_response L 500 "Internal server error"
   \/ r = error_response L 500 "Failed to generate upload URL")
  /\ (r = error_response L 500 "Failed to generate upload URL" ->
      exists key content_type text,
        presign cfg W key content_type = Raise (ClientError text)).
Proof.
  rewrite lambda_handler_catches.
  destruct (try_block L cfg W event) as [r'|e] eqn:Ht.
  - intros [= ->] Hs.
    destruct (try_block_returns L cfg W event r Ht) as [[m ->]|[url [key ->]]];
      discriminate Hs.
  - destruct e; cbn [is_ClientError]; intros [= <-] _;
      try (split; [now left | intros H; now destruct (internal_error_distinct L)]).
    split; [now right|]. intros _.
    destruct (try_block_ClientError L cfg W event text Ht) as (key & ct & Hp).
    eauto.
Qed.

Lemma X12_server_errors_are_generic_witness :
  (error_response RefLib.lib 500 "Failed to generate upload URL"
   = error_response RefLib.lib 500 "Internal server error"
   \/ error_response RefLib.lib 500 "Failed to generate upload URL"
      = error_response RefLib.lib 500 "Failed to generate upload URL")
  /\ (error_response RefLib.lib 500 "Failed to generate upload URL"
      = error_response RefLib.lib 500 "Failed to generate upload URL" ->
      exists key content_type text,
        presign Demo.cfg (Demo.world_with Demo.signer_client_error) key content_type
        = Raise (ClientError text)).
Proof.
  apply (X12_server_errors_are_generic RefLib.lib Demo.cfg
           (Demo.world_with Demo.signer_client_error) (PDict Demo.photo));
    vm_compute; reflexivity.
Defined.

(** X13: the three shapes of an event give the same answer: a request sent
    as the event itself, the same request under [body] as a dictionary, and
    under [body] as a string that decodes to it.  Once an event has a
    [body], its other top-level fields play no part. *)
Theorem X13_event_shapes_agree
  (L : PyLib) (cfg : Config) (W : World)
  (ev d : list (string * pyval)) :
  dict_get d "body" = None ->
  (dict_get ev "body" = Some (PDict d) ->
   lambda_handler L cfg W (PDict ev) = lambda_handler L cfg W (PDict d))
  /\ (forall s,
        dict_get ev "body" = Some (PStr s) -> json_loads L s = Some (PDict d) ->
        lambda_handler L cfg W (PDict ev) = lambda_handler L cfg W (PDict d)).
Proof.
  intros Hd. split.
  - intros Hb. apply lambda_handler_same_request.
    now rewrite (extract_body_wrapped L ev _ Hb), (extract_body_plain L d Hd).
  - intros s Hb Hj. apply lambda_handler_same_request.
    now rewrite (extract_body_serialised L ev s _ Hb Hj), (extract_body_plain L d Hd).
Qed.

Lemma X13_event_shapes_agree_witness :
  lambda_handler RefLib.lib Demo.cfg (Demo.world 7)
    (PDict [("filename", PStr "ignored.exe"); ("body", PDict Demo.photo)])
  = lambda_handler RefLib.lib Demo.cfg (Demo.world 7) (PDict Demo.photo)
  /\ lambda_handler RefLib.lib Demo.cfg (Demo.world 7)
       (Demo.api_gateway_event Demo.photo)
     = lambda_handler RefLib.lib Demo.cfg (Demo.world 7) (PDict Demo.photo).
Proof.
  split.
  - apply (X13_event_shapes_agree RefLib.lib Demo.cfg (Demo.world 7)
             [("filename", PStr "ignored.exe"); ("body", PDict Demo.photo)]
             Demo.photo); reflexivity.
  - pose proof (X13_event_shapes_agree RefLib.lib Demo.cfg (Demo.world 7)
                  [("body", PStr (json_dumps RefLib.lib (PDict Demo.photo)))]
                  Demo.photo eq_refl) as [_ H].
    apply (H (json_dumps RefLib.lib (PDict Demo.photo)));
      vm_compute; reflexivity.
Defined.

(** ** Response bodies as JSON texts *)

Section JsonTexts.

Lemma lex_escape_char (c : ascii) (fuel : nat) (tail : string) :
  RefLib.lex_string (S fuel) (json_escape_char c ++ tail)
  = match RefLib.lex_string fuel tail with
    | Some (t, rest) => Some (String c t, rest)
    | None => None
    end.
Proof.
  destruct c as [b0 b1 b2 b3 b4 b5 b6 b7].
  destruct b0, b1, b2, b3, b4, b5, b6, b7; reflexivity.
Qed.

Lemma lex_json_escape (s : string) (fuel : nat) (rest : string) :
  (String.length s < fuel)%nat ->
  RefLib.lex_string fuel (json_escape s ++ String dquote rest) = Some (s, rest).
Proof.
  revert fuel; induction s as [|c s IH]; intros [|fuel] H; try (simpl in H; lia).
  - reflexivity.
  - simpl json_escape. rewrite append_assoc, lex_escape_char, IH; [reflexivity|].
    simpl in H. lia.
Qed.

Lemma json_escape_char_nonempty (c : ascii) :
  (1 <= String.length (json_escape_char c))%nat.
Proof.
  unfold json_escape_char.
  repeat match goal with
         | |- context [if ?b then _ else _] => destruct b
         end; simpl; lia.
Qed.

Lemma length_json_escape (s : string) :
  (String.length s <= String.length (json_escape s))%nat.
Proof.
  induction s as [|c s IH]; simpl; [lia|].
  rewrite length_append. pose proof (json_escape_char_nonempty c). lia.
Qed.

Lemma parse_value_json_string (fuel : nat) (s rest : string) :
  RefLib.parse_value (S fuel) (json_string s ++ rest) = Some (PStr s, rest).
Proof.
  unfold json_string.
  change (String dquote (json_escape s) ++ String dquote EmptyString)
    with (String dquote (json_escape s ++ String dquote EmptyString)).
  change (String dquote (json_escape s ++ String dquote EmptyString) ++ rest)
    with (String dquote ((json_escape s ++ String dquote EmptyString) ++ rest)).
  rewrite append_assoc.
  change (String dquote EmptyString ++ rest) with (String dquote rest).
  change (RefLib.parse_value (S fuel) (String dquote (json_escape s ++ String dquote rest)))
    with (match RefLib.lex_string (S (String.length (json_escape s ++ String dquote rest)))
                  (json_escape s ++ String dquote rest) with
          | Some (t, rest') => Some (PStr t, rest')
          | None => None
          end).
  rewrite lex_json_escape; [reflexivity|].
  rewrite length_append. pose proof (length_json_escape s). lia.
Qed.



Lemma parse_value_object (fuel : nat) (r : string) :
  RefLib.parse_value (S fuel) (String "{" (String dquote r))
  = RefLib.parse_object fuel (String dquote r) [].
Proof. reflexivity. Qed.

(** One member [key: value] of an object, followed by what the value
    parser leaves. *)
Lemma parse_object_member (fuel : nat) (k tail : string)
      (acc : list (string * pyval)) :
  RefLib.parse_object (S fuel) (json_string k ++ ": " ++ tail) acc
  = match RefLib.parse_value fuel (RefLib.skip_ws tail) with
    | None => None
    | Some (v, r3) =>
        match RefLib.skip_ws r3 with
        | String "}" rest => Some (PDict (RefLib.dict_set acc k v), rest)
        | String "," rest =>
            RefLib.parse_object fuel (RefLib.skip_ws rest) (RefLib.dict_set acc k v)
        | _ => None
        end
    end.
Proof.
  unfold json_string.
  change (String dquote (json_escape k) ++ String dquote EmptyString)
    with (String dquote (json_escape k ++ String dquote EmptyString)).
  change (String dquote (json_escape k ++ String dquote EmptyString) ++ ": " ++ tail)
    with (String dquote ((json_escape k ++ String dquote EmptyString) ++ ": " ++ tail)).
  rewrite append_assoc.
  change (String dquote EmptyString ++ ": " ++ tail)
    with (String dquote (String ":" (String " " tail))).
  set (X := json_escape k ++ String dquote (String ":" (String " " tail))).
  change (RefLib.parse_object (S fuel) (String dquote X) acc)
    with (match RefLib.lex_string (S (String.length X)) X with
          | None => None
          | Some (k, r1) =>
              match RefLib.skip_ws r1 with
              | String ":" r2 =>
                  match RefLib.parse_value fuel (RefLib.skip_ws r2) with
                  | None => None
                  | Some (v, r3) =>
                      match RefLib.skip_ws r3 with
                      | String "}" rest => Some (PDict (RefLib.dict_set acc k v), rest)
                      | String "," rest =>
                          RefLib.parse_object fuel (RefLib.skip_ws rest)
                                              (RefLib.dict_set acc k v)
                      | _ => None
                      end
                  end
              | _ => None
              end
          end).
  unfold X. rewrite lex_json_escape; [reflexivity|].
  rewrite length_append. pose proof (length_json_escape k). lia.
Qed.

Lemma skip_ws_json_string (s rest : string) :
  RefLib.skip_ws (json_string s ++ rest) = json_string s ++ rest.
Proof. reflexivity. Qed.

Ltac lex_digit IH d rest acc cnt k :=
  change (RefLib.lex_digits _ acc cnt)
    with (RefLib.lex_digits (DecimalString.NilEmpty.string_of_uint d ++ rest)
                            (10 * acc + k) (cnt + 1));
  rewrite IH; cbn [Decimal.nb_digits]; rewrite Nat2Z.inj_succ;
  f_equal; f_equal; lia.

(** The digits of [d], followed by a comma or a closing brace, are read
    back as the value of [d]. *)
Lemma lex_digits_uint (d : Decimal.uint) (c : ascii) (r : string) (acc cnt : Z) :
  c = ","%char \/ c = "}"%char ->
  RefLib.lex_digits (DecimalString.NilEmpty.string_of_uint d ++ String c r) acc cnt
  = (horner d acc, cnt + Z.of_nat (Decimal.nb_digits d), String c r).
Proof.
  intros Hc. revert acc cnt.
  induction d; intros acc cnt; cbn [DecimalString.NilEmpty.string_of_uint append horner].
  - cbn [Decimal.nb_digits]. rewrite Z.add_0_r. destruct Hc as [-> | ->]; reflexivity.
  - lex_digit IHd d (String c r) acc cnt 0.
  - lex_digit IHd d (String c r) acc cnt 1.
  - lex_digit IHd d (String c r) acc cnt 2.
  - lex_digit IHd d (String c r) acc cnt 3.
  - lex_digit IHd d (String c r) acc cnt 4.
  - lex_digit IHd d (String c r) acc cnt 5.
  - lex_digit IHd d (String c r) acc cnt 6.
  - lex_digit IHd d (String c r) acc cnt 7.
  - lex_digit IHd d (String c r) acc cnt 8.
  - lex_digit IHd d (String c r) acc cnt 9.
Qed.

Lemma horner_acc (d : Decimal.uint) (acc : positive) :
  horner d (Z.pos acc) = Z.pos (Pos.of_uint_acc d acc).
Proof.
  revert acc; induction d; intros acc; cbn [horner Pos.of_uint_acc];
    try reflexivity; rewrite <- IHd; f_equal; lia.
Qed.

Lemma horner_of_uint (d : Decimal.uint) :
  horner d 0 = Z.of_N (Pos.of_uint d).
Proof.
  induction d; cbn [horner Pos.of_uint]; try reflexivity; try exact IHd;
    apply (horner_acc d).
Qed.

Lemma horner_to_uint (p : positive) : horner (Pos.to_uint p) 0 = Z.pos p.
Proof. now rewrite horner_of_uint, DecimalPos.Unsigned.of_to. Qed.

(** The decimal writing of a positive number has no leading zero. *)
Lemma to_uint_head (p : positive) :
  match Pos.to_uint p with
  | Decimal.Nil | Decimal.D0 _ => False
  | _ => True
  end.
Proof.
  pose proof (DecimalPos.Unsigned.to_of (Pos.to_uint p)) as H.
  rewrite DecimalPos.Unsigned.of_to in H. cbn [N.to_uint] in H.
  pose proof (DecimalPos.Unsigned.to_uint_nonzero p) as Hz.
  destruct (Pos.to_uint p) as [|l| | | | | | | | | ]; try exact I.
  - apply Hz. exact H.
  - rewrite DecimalFacts.unorm_D0 in H.
    assert (Hn : (Decimal.nb_digits (Decimal.unorm l) <= Decimal.nb_digits l)%nat).
    { destruct l; [|apply DecimalFacts.nb_digits_unorm; discriminate ..].
      exfalso. now apply Hz. }
    rewrite <- H in Hn. cbn [Decimal.nb_digits] in Hn. lia.
Qed.

(** An unsigned integer literal of at most 4300 digits, followed by a
    comma or a closing brace. *)
Lemma lex_number_pos (neg : bool) (p : positive) (c : ascii) (r : string) :
  c = ","%char \/ c = "}"%char ->
  Z.of_nat (Decimal.nb_digits (Pos.to_uint p)) <= RefLib.int_max_str_digits ->
  RefLib.lex_number neg (DecimalString.NilEmpty.string_of_uint (Pos.to_uint p) ++ String c r)
  = Some (PInt (if neg then Z.neg p else Z.pos p), String c r).
Proof.
  intros Hc Hn. unfold RefLib.lex_number.
  assert (Hi : RefLib.lex_int_part
                 (DecimalString.NilEmpty.string_of_uint (Pos.to_uint p) ++ String c r)
               = Some (Z.pos p, Z.of_nat (Decimal.nb_digits (Pos.to_uint p)), String c r)).
  { pose proof (to_uint_head p) as Hh.
    rewrite <- (horner_to_uint p), <- (Z.add_0_l (Z.of_nat _)).
    rewrite <- (lex_digits_uint (Pos.to_uint p) c r 0 0 Hc).
    destruct (Pos.to_uint p); try contradiction; reflexivity. }
  rewrite Hi.
  apply Z.ltb_ge in Hn.
  destruct Hc as [-> | ->]; cbn -[Z.ltb RefLib.int_max_str_digits];
    rewrite Hn; reflexivity.
Qed.

Lemma parse_value_digit (fuel : nat) (c : ascii) (r : string) :
  RefLib.digit_val c <> None ->
  RefLib.parse_value (S fuel) (String c r)
  = match RefLib.lex_number false (String c r) with
    | Some res => Some res
    | None => None
    end.
Proof.
  intros H. destruct c as [b0 b1 b2 b3 b4 b5 b6 b7].
  destruct b0, b1, b2, b3, b4, b5, b6, b7;
    try reflexivity; exfalso; apply H; reflexivity.
Qed.

Lemma parse_value_minus (fuel : nat) (r : string) (res : pyval * string) :
  RefLib.lex_number true r = Some res ->
  RefLib.parse_value (S fuel) (String "-" r) = Some res.
Proof.
  intros H.
  change (RefLib.parse_value (S fuel) (String "-" r))
    with (match RefLib.lex_number true r with
          | Some res => Some res
          | None =>
              option_map (fun rest => (PFloat (SpecFloat.S754_infinity true), rest))
                         (RefLib.strip_prefix "-Infinity" (String "-" r))
          end).
  now rewrite H.
Qed.

Lemma length_string_of_uint (d : Decimal.uint) :
  String.length (DecimalString.NilEmpty.string_of_uint d) = Decimal.nb_digits d.
Proof. induction d; simpl; congruence. Qed.

Lemma string_of_uint_pos (p : positive) :
  DecimalString.NilZero.string_of_uint (Pos.to_uint p)
  = DecimalString.NilEmpty.string_of_uint (Pos.to_uint p).
Proof.
  pose proof (to_uint_head p) as H.
  destruct (Pos.to_uint p); [contradiction | reflexivity ..].
Qed.

(** The first character of the decimal writing of a positive number is a
    digit. *)
Lemma string_of_uint_head (p : positive) (rest : string) :
  exists c r,
    DecimalString.NilEmpty.string_of_uint (Pos.to_uint p) ++ rest = String c r
    /\ RefLib.digit_val c <> None.
Proof.
  pose proof (to_uint_head p) as H.
  destruct (Pos.to_uint p); try contradiction;
    cbn [DecimalString.NilEmpty.string_of_uint append];
    do 2 eexists; (split; [reflexivity | discriminate]).
Qed.

(** [json.dumps] of an integer of at most 4300 digits, followed by a comma
    or a closing brace, is read back as that integer. *)
Lemma parse_value_int (fuel : nat) (z : Z) (c : ascii) (r : string) :
  c = ","%char \/ c = "}"%char ->
  PyStr.len (PyNum.str_of_int (Z.abs z)) <= RefLib.int_max_str_digits ->
  RefLib.parse_value (S fuel) (RefLib.skip_ws (PyNum.str_of_int z ++ String c r))
  = Some (PInt z, String c r).
Proof.
  intros Hc Hn. unfold PyNum.str_of_int in *.
  destruct z as [|p|p]; cbn [Z.abs Z.to_int DecimalString.NilZero.string_of_int] in *.
  - destruct Hc as [-> | ->]; reflexivity.
  - rewrite string_of_uint_pos in *.
    unfold PyStr.len in Hn. rewrite length_string_of_uint in Hn.
    destruct (string_of_uint_head p (String c r)) as (c0 & r0 & E & Hd).
    rewrite E.
    assert (Hw : RefLib.skip_ws (String c0 r0) = String c0 r0).
    { destruct c0 as [b0 b1 b2 b3 b4 b5 b6 b7].
      destruct b0, b1, b2, b3, b4, b5, b6, b7;
        try reflexivity; exfalso; apply Hd; reflexivity. }
    rewrite Hw, (parse_value_digit fuel c0 r0 Hd), <- E.
    now rewrite (lex_number_pos false p c r Hc Hn).
  - rewrite string_of_uint_pos in *.
    unfold PyStr.len in Hn. rewrite length_string_of_uint in Hn.
    change (RefLib.skip_ws (String "-" ?X ++ String c r))
      with (String "-" (DecimalString.NilEmpty.string_of_uint (Pos.to_uint p)
                        ++ String c r)).
    apply parse_value_minus. exact (lex_number_pos true p c r Hc Hn).
Qed.

Lemma parse_object_member_more (fuel : nat) (k k' tail rest : string) (v : pyval)
      (acc : list (string * pyval)) :
  RefLib.parse_value fuel (RefLib.skip_ws tail)
  = Some (v, ", " ++ json_string k' ++ rest) ->
  RefLib.parse_object (S fuel) (json_string k ++ ": " ++ tail) acc
  = RefLib.parse_object fuel (json_string k' ++ rest) (RefLib.dict_set acc k v).
Proof. intros H. rewrite parse_object_member, H. reflexivity. Qed.

Lemma parse_object_member_last (fuel : nat) (k tail rest : string) (v : pyval)
      (acc : list (string * pyval)) :
  RefLib.parse_value fuel (RefLib.skip_ws tail) = Some (v, "}" ++ rest) ->
  RefLib.parse_object (S fuel) (json_string k ++ ": " ++ tail) acc
  = Some (PDict (RefLib.dict_set acc k v), rest).
Proof. intros H. rewrite parse_object_member, H. reflexivity. Qed.

(** Decoding an object text whose first member has the key [k]. *)
Lemma json_loads_object (k rest : string) :
  exists fuel,
    RefLib.json_loads ("{" ++ json_string k ++ rest)
    = match RefLib.parse_object (S (S (S (S (S fuel)))))
                                (json_string k ++ rest) [] with
      | Some (v, rest') =>
          match RefLib.skip_ws rest' with
          | EmptyString => Some v
          | _ => None
          end
      | None => None
      end.
Proof.
  exists (2 * String.length (json_escape k ++ String dquote EmptyString ++ rest))%nat.
  unfold RefLib.json_loads.
  replace (2 * String.length ("{" ++ json_string k ++ rest) + 2)%nat
    with (S (S (S (S (S (S (2 * String.length
                              (json_escape k ++ String dquote EmptyString ++ rest)))))))).
  - reflexivity.
  - unfold json_string.
    change ("{" ++ (String dquote (json_escape k) ++ String dquote EmptyString) ++ rest)
      with (String "{" (String dquote
              ((json_escape k ++ String dquote EmptyString) ++ rest))).
    rewrite append_assoc. cbn [String.length]. lia.
Qed.

End JsonTexts.

(** X14: the body of an error response is a JSON text that decodes to an
    object with the single field [error] holding the message, character for
    character, whatever the message contains. *)
Theorem X14_error_body_decodes (L : PyLib) (code : Z) (message : string) :
  RefLib.json_loads (body (error_response L code message))
  = Some (PDict [("error", PStr message)]).
Proof.
  cbn [error_response body json_dumps map join fst snd].
  rewrite !append_assoc.
  destruct (json_loads_object "error" (": " ++ json_string message ++ "}"))
    as [fuel ->].
  rewrite (parse_object_member_last _ "error" _ EmptyString (PStr message)).
  - reflexivity.
  - apply (parse_value_json_string _ message "}").
Qed.

(** X15: the body of the success response decodes to an object with the
    URL, the key, the configured expiry and the confirmation message,
    whatever characters the URL and the key contain (the expiry having at
    most 4300 digits, the longest integer literal the decoder accepts). *)
Theorem X15_success_body_decodes (L : PyLib) (cfg : Config) (url key : string) :
  PyStr.len (PyNum.str_of_int (Z.abs (PRESIGNED_URL_EXPIRY cfg)))
  <= RefLib.int_max_str_digits ->
  RefLib.json_loads (body (success_response L cfg url key))
  = Some (PDict [ ("uploadUrl", PStr url);
                  ("fileKey", PStr key);
                  ("expiresIn", PInt (PRESIGNED_URL_EXPIRY cfg));
                  ("message", PStr "Upload URL generated successfully") ]).
Proof.
  intros Hn.
  cbn [success_response body json_dumps map join fst snd].
  rewrite !append_assoc.
  match goal with
  | |- RefLib.json_loads ("{" ++ json_string "uploadUrl" ++ ?rest) = _ =>
      destruct (json_loads_object "uploadUrl" rest) as [fuel ->]
  end.
  rewrite (parse_object_member_more _ "uploadUrl" "fileKey" _ _ (PStr url))
    by apply (parse_value_json_string _ url).
  rewrite (parse_object_member_more _ "fileKey" "expiresIn" _ _ (PStr key))
    by apply (parse_value_json_string _ key).
  rewrite (parse_object_member_more _ "expiresIn" "message" _ _
             (PInt (PRESIGNED_URL_EXPIRY cfg)))
    by (apply (parse_value_int _ _ ","); [now left | exact Hn]).
  rewrite (parse_object_member_last _ "message" _ EmptyString
             (PStr "Upload URL generated successfully"))
    by apply (parse_value_json_string _ "Upload URL generated successfully" "}").
  reflexivity.
Qed.

Lemma X15_success_body_decodes_witness :
  RefLib.json_loads
    (body (success_response RefLib.lib Demo.cfg
             ("https://uploads.s3.amazonaws.com/k?sig=" ++ String dquote "\")
             "2024/03/09/00000000-0000-4000-8000-000000000007-photo.png"))
  = Some (PDict [ ("uploadUrl",
                   PStr ("https://uploads.s3.amazonaws.com/k?sig="
                         ++ String dquote "\"));
                  ("fileKey",
                   PStr "2024/03/09/00000000-0000-4000-8000-000000000007-photo.png");
                  ("expiresIn", PInt (PRESIGNED_URL_EXPIRY Demo.cfg));
                  ("message", PStr "Upload URL generated successfully") ]).
Proof.
  apply (X15_success_body_decodes RefLib.lib Demo.cfg).
  vm_compute. discriminate.
Defined.

(** ** Reading a storage key back *)

Section KeyLayout.

Lemma take_append (a b : string) : PyStr.take (String.length a) (a ++ b) = a.
Proof. induction a as [|c a IH]; simpl; [now destruct b | now rewrite IH]. Qed.

(** A check that holds at every point of a range holds on the interval. *)
Lemma range_check (f : Z -> bool) (lo n : Z) :
  forallb (fun k => f (lo + Z.of_nat k)) (seq 0 (Z.to_nat n)) = true ->
  forall z, lo <= z < lo + n -> f z = true.
Proof.
  intros H z Hz. rewrite forallb_forall in H.
  replace z with (lo + Z.of_nat (Z.to_nat (z - lo))) by lia.
  apply H. apply in_seq. lia.
Qed.

Lemma length_year (y : Z) :
  1000 <= y <= 9999 ->
  String.length (zero_pad 4 (PyNum.str_of_int y)) = 4%nat.
Proof.
  intros H.
  apply Nat.eqb_eq.
  apply (range_check
           (fun z => Nat.eqb (String.length (zero_pad 4 (PyNum.str_of_int z))) 4)
           1000 9000); [vm_compute; reflexivity | lia].
Qed.

Lemma length_month_or_day (n : Z) :
  1 <= n <= 31 ->
  String.length (zero_pad 2 (PyNum.str_of_int n)) = 2%nat.
Proof.
  intros H.
  apply Nat.eqb_eq.
  apply (range_check
           (fun z => Nat.eqb (String.length (zero_pad 2 (PyNum.str_of_int z))) 2)
           1 31); [vm_compute; reflexivity | lia].
Qed.

(** The partition of a calendar date has ten characters. *)
Lemma length_strftime_Ymd (d : datetime) :
  is_calendar_date d = true -> String.length (strftime_Ymd d) = 10%nat.
Proof.
  unfold is_calendar_date. intros H.
  repeat (apply andb_true_iff in H as [H ?]).
  unfold strftime_Ymd. rewrite !length_append.
  rewrite length_year, !length_month_or_day by lia. reflexivity.
Qed.

End KeyLayout.

(** X16: a key issued on a calendar date (a year of four digits) has a
    fixed layout, from which its three parts are read back: the first ten
    characters are the date partition, characters 11 to 46 the identifier,
    and everything from character 48 on is the sanitized file name. *)
Theorem X16_key_reads_back (W : World) (safe : string) :
  is_calendar_date (utcnow W) = true ->
  PyStr.slice_to 10 (file_key W safe) = strftime_Ymd (utcnow W)
  /\ PyStr.slice 11 47 (file_key W safe) = uuid4 (urandom W)
  /\ PyStr.slice_from 48 (file_key W safe) = safe.
Proof.
  intros Hd.
  pose proof (length_strftime_Ymd _ Hd) as LD.
  assert (LU : String.length (uuid4 (urandom W)) = 36%nat)
    by (unfold uuid4; apply length_uuid_str).
  assert (LK : PyStr.len (file_key W safe) = 48 + PyStr.len safe).
  { unfold PyStr.len. rewrite file_key_shape, !length_append, LD, LU.
    simpl String.length. lia. }
  assert (Hs : 0 <= PyStr.len safe) by (unfold PyStr.len; lia).
  unfold PyStr.slice_to, PyStr.slice, PyStr.slice_from.
  rewrite !clamp_inside by lia.
  set (D := strftime_Ymd (utcnow W)) in *.
  set (U := uuid4 (urandom W)) in *.
  assert (L1 : String.length (D ++ "/") = 11%nat)
    by (rewrite length_append, LD; reflexivity).
  assert (L2 : String.length (U ++ "-") = 37%nat)
    by (rewrite length_append, LU; reflexivity).
  assert (K1 : file_key W safe = D ++ "/" ++ U ++ "-" ++ safe) by reflexivity.
  assert (K2 : file_key W safe = (D ++ "/") ++ U ++ "-" ++ safe)
    by (now rewrite K1, append_assoc).
  assert (K3 : file_key W safe = ((D ++ "/") ++ U ++ "-") ++ safe)
    by (now rewrite K2, !append_assoc).
  repeat split.
  - rewrite K1. change (Z.to_nat 10) with 10%nat. rewrite <- LD.
    apply take_append.
  - rewrite K2.
    replace (Z.to_nat 11) with (String.length (D ++ "/") + 0)%nat
      by (rewrite L1; reflexivity).
    rewrite drop_append.
    replace (Z.to_nat 47 - (String.length (D ++ "/") + 0))%nat
      with (String.length U) by (rewrite L1, LU; reflexivity).
    apply take_append.
  - rewrite K3.
    replace (Z.to_nat 48) with (String.length ((D ++ "/") ++ U ++ "-") + 0)%nat
      by (rewrite length_append, L1, L2; reflexivity).
    now rewrite drop_append.
Qed.

Lemma X16_key_reads_back_witness :
  PyStr.slice_to 10 (file_key (Demo.world 7) "photo.png") = "2024/03/09"
  /\ PyStr.slice 11 47 (file_key (Demo.world 7) "photo.png")
     = "00000000-0000-4000-8000-000000000007"
  /\ PyStr.slice_from 48 (file_key (Demo.world 7) "photo.png") = "photo.png".
Proof.
  apply (X16_key_reads_back (Demo.world 7) "photo.png"). reflexivity.
Defined.

(** ** Sample instances of the equivalences *)

Lemma X1_sanitize_fixed_points_witness :
  sanitize_filename "report-2024.final.pdf" = "report-2024.final.pdf".
Proof.
  apply (proj2 (X1_sanitize_fixed_points "report-2024.final.pdf")).
  split; [reflexivity | vm_compute; discriminate].
Defined.

Lemma X5_sanitize_limit_iff_witness :
  PyStr.len (sanitize_filename (PyStr.repeat "s" 500 ++ ".extension"))
  <= max_length.
Proof.
  apply (proj2 (X5_sanitize_limit_iff (PyStr.repeat "s" 500 ++ ".extension"))).
  vm_compute. discriminate.
Defined.

Lemma X7_sanitize_idempotent_iff_witness :
  sanitize_filename (sanitize_filename "../a:b/c?d.txt")
  = sanitize_filename "../a:b/c?d.txt".
Proof.
  apply (proj2 (X7_sanitize_idempotent_iff "../a:b/c?d.txt")).
  vm_compute. discriminate.
Defined.
